(** * The chat stream reformatter and the user routes

    A shallow embedding of [backend/routes/chat.py] (the methods of [Chat]
    that turn agent events into text fragments) and of the two write paths
    of [backend/routes/users.py].

    Conventions.
    - A Python [str] is the Rocq [string] of its UTF-8 encoding.  A
      character is a byte that is no continuation byte, together with the
      continuation bytes that follow it: [len] counts characters, not
      bytes, and a loop over a [str] visits characters.
    - A value returned by [json.loads] is a [json]; a Python [dict] keeps
      insertion order, so it is an association list.
    - A generator or function body is a computation in [py]: the effects it
      performed, in order ([Yield] for a fragment handed to the consumer,
      [Print] for a line on standard output), and how it ended ([Return] or
      [Raise]).
    - What belongs to the interpreter and its libraries, and not to this
      repository, is a method of a class: [json.loads] with the errors it
      raises, [str] of a value that is no string, [str.strip] and the
      wording of exception messages in [Chat.Runtime], [bcrypt] and the
      constraints of the users table in [Users.Backend], the agent of the
      SDK in [Session.SDK].  The theorems hold for every instance. *)

From Stdlib Require Import ZArith Ascii String List Bool DecimalString.
From Stdlib Require Import Floats.SpecFloat.
From stdpp Require Import base option list gmap strings.

(** ** Text *)

Definition nl : string := String (ascii_of_nat 10) EmptyString.
Definition dq : string := String (ascii_of_nat 34) EmptyString.

(** [str(i)] for a loop index. *)
Definition str_of_nat (i : nat) : string :=
  NilEmpty.string_of_uint (Nat.to_uint i).

Fixpoint is_prefix (p s : string) : bool :=
  match p, s with
  | EmptyString, _ => true
  | String a p', String b s' => if Ascii.eqb a b then is_prefix p' s' else false
  | String _ _, EmptyString => false
  end.

(** [p in s] for two strings: [p] occurs in [s]. *)
Fixpoint is_infix (p s : string) : bool :=
  is_prefix p s ||
  match s with
  | EmptyString => false
  | String _ s' => is_infix p s'
  end.

(** A continuation byte of UTF-8: [10xxxxxx]. *)
Definition is_continuation (c : ascii) : bool :=
  let n := nat_of_ascii c in (128 <=? n)%nat && (n <? 192)%nat.

(** [len(s)]: the number of characters of [s]. *)
Fixpoint len (s : string) : nat :=
  match s with
  | EmptyString => 0
  | String c s' => if is_continuation c then len s' else S (len s')
  end.

(** The continuation bytes [s] starts with, and the characters after
    them. *)
Fixpoint split_chars (s : string) : string * list string :=
  match s with
  | EmptyString => (EmptyString, [])
  | String c s' =>
      let '(continuation, characters) := split_chars s' in
      if is_continuation c then (String c continuation, characters)
      else (EmptyString, String c continuation :: characters)
  end.

(** The characters of [s], each a string of its own, as a loop over a
    [str] visits them. *)
Definition chars (s : string) : list string := snd (split_chars s).

(** ** Parsed JSON values, as Python sees them *)

#[warnings="-register-all"]
Inductive json : Type :=
  | JNull
  | JBool (b : bool)
  | JInt (n : Z)
  | JFloat (x : spec_float)
  | JString (s : string)
  | JArray (items : list json)
  | JObject (members : list (string * json)).

(** [None] is [JNull]. *)
Abbreviation py_None := JNull.

(** [bool(v)], the test an [if v] performs. *)
Definition truthy (v : json) : bool :=
  match v with
  | JNull => false
  | JBool b => b
  | JInt n => negb (n =? 0)%Z
  | JFloat (S754_zero _) => false
  | JFloat _ => true
  | JString EmptyString => false
  | JString _ => true
  | JArray [] => false
  | JArray _ => true
  | JObject [] => false
  | JObject _ => true
  end.

Definition is_None (v : json) : bool :=
  match v with JNull => true | _ => false end.

(** [v == s] and [v != s] for a string literal [s]. *)
Definition eq_str (v : json) (s : string) : bool :=
  match v with JString t => String.eqb t s | _ => false end.

Definition isinstance_dict (v : json) : bool :=
  match v with JObject _ => true | _ => false end.
(** [type(v).__name__]. *)
Definition type_name (v : json) : string :=
  match v with
  | JNull => "NoneType" | JBool _ => "bool" | JInt _ => "int"
  | JFloat _ => "float" | JString _ => "str" | JArray _ => "list"
  | JObject _ => "dict"
  end.

(** Dictionaries: lookup of the entry of a key, [d.get(k, default)]. *)
Fixpoint dict_lookup (k : string) (d : list (string * json)) : option json :=
  match d with
  | [] => None
  | (k', v) :: d' => if String.eqb k k' then Some v else dict_lookup k d'
  end.

Definition dict_get (d : list (string * json)) (k : string) (default : json) : json :=
  match dict_lookup k d with Some v => v | None => default end.

(** ** Exceptions *)

Inductive exn_class :=
  | JSONDecodeError | TypeError | AttributeError | KeyError | IndexError
  | ValueError | RecursionError.

(** The exceptions the modelled code can meet, by what went wrong. *)
Inductive exn : Type :=
  | not_json (doc : string)                 (* json.loads(doc), no JSON *)
  | integer_too_long (digits : nat)         (* json.loads of an integer of so many digits *)
  | nesting_too_deep (doc : string)         (* json.loads(doc), recursion limit *)
  | no_attribute (obj : json) (attr : string)  (* obj.attr *)
  | not_a_container (obj : json)            (* k in obj *)
  | bad_subscript (obj : json) (key : string)  (* obj[key], obj no dict *)
  | missing_key (key : string)              (* d[key] *)
  | not_iterable (obj : json)               (* for _ in obj *)
  | bad_keyword (callee kw : string).       (* callee(..., kw=...) *)

Definition class_of (e : exn) : exn_class :=
  match e with
  | not_json _ => JSONDecodeError
  | integer_too_long _ => ValueError
  | nesting_too_deep _ => RecursionError
  | no_attribute _ _ => AttributeError
  | not_a_container _ => TypeError
  | bad_subscript _ _ => TypeError
  | missing_key _ => KeyError
  | not_iterable _ => TypeError
  | bad_keyword _ _ => TypeError
  end.

(** Why [json.loads] raises on a text it returns no value for: the text is
    no JSON ([JSONDecodeError]), it holds an integer of more digits than
    the interpreter converts ([ValueError]), or it is nested deeper than
    the interpreter recurses ([RecursionError]). *)
Inductive loads_error : Type :=
  | invalid_json
  | too_many_digits (digits : nat)
  | too_deep.

Definition loads_exn (doc : string) (why : loads_error) : exn :=
  match why with
  | invalid_json => not_json doc
  | too_many_digits digits => integer_too_long digits
  | too_deep => nesting_too_deep doc
  end.

(** [type(e).__name__]. *)
Definition class_name (c : exn_class) : string :=
  match c with
  | JSONDecodeError => "JSONDecodeError" | TypeError => "TypeError"
  | AttributeError => "AttributeError" | KeyError => "KeyError"
  | IndexError => "IndexError" | ValueError => "ValueError"
  | RecursionError => "RecursionError"
  end.

(** ** Computations with output and exceptions *)

Inductive effect : Type :=
  | Yield (fragment : string)
  | Print (line : string).

Inductive outcome (A : Type) : Type :=
  | Return (a : A)
  | Raise (e : exn).
Arguments Return {A} a.
Arguments Raise {A} e.

Definition py (A : Type) : Type := (list effect * outcome A)%type.

Definition trace {A} (m : py A) : list effect := fst m.
Definition result {A} (m : py A) : outcome A := snd m.

#[global] Instance py_ret : MRet py := fun A a => ([], Return a).
#[global] Instance py_bind : MBind py := fun A B f m =>
  match m with
  | (t, Return a) => let '(t', r) := f a in (t ++ t', r)
  | (t, Raise e) => (t, Raise e)
  end.

Definition yield (s : string) : py unit := ([Yield s], Return tt).
Definition print (s : string) : py unit := ([Print s], Return tt).
Definition raise {A} (e : exn) : py A := ([], Raise e).
Definition pass : py unit := mret tt.

(** [try: body  except ...: handler]; a handler answering [None] does not
    match the exception, which goes on to the caller. *)
Definition try_except {A} (body : py A) (handler : exn -> option (py A)) : py A :=
  match body with
  | (t, Return a) => (t, Return a)
  | (t, Raise e) =>
      match handler e with
      | Some h => let '(t', r) := h in (t ++ t', r)
      | None => (t, Raise e)
      end
  end.

(** [for x in xs: body(x)]. *)
Fixpoint for_each {A} (xs : list A) (body : A -> py unit) : py unit :=
  match xs with
  | [] => mret tt
  | x :: xs' => body x ;; for_each xs' body
  end.

(** [enumerate(xs, start)]. *)
Fixpoint enumerate {A} (xs : list A) (start : nat) : list (nat * A) :=
  match xs with
  | [] => []
  | x :: xs' => (start, x) :: enumerate xs' (S start)
  end.

(** The fragments a consumer of the generator receives. *)
Fixpoint fragments (t : list effect) : list string :=
  match t with
  | [] => []
  | Yield s :: t' => s :: fragments t'
  | Print _ :: t' => fragments t'
  end.

(** ** Operations of the interpreter on parsed values *)

(** [k in v]. *)
Definition py_in (k : string) (v : json) : py bool :=
  match v with
  | JObject d => mret (match dict_lookup k d with Some _ => true | None => false end)
  | JArray l => mret (existsb (fun x => eq_str x k) l)
  | JString s => mret (is_infix k s)
  | _ => raise (not_a_container v)
  end.

(** [v[k]] for a string [k]. *)
Definition subscript (v : json) (k : string) : py json :=
  match v with
  | JObject d =>
      match dict_lookup k d with
      | Some x => mret x
      | None => raise (missing_key k)
      end
  | _ => raise (bad_subscript v k)
  end.

(** The items a [for] loop over [v] visits. *)
Definition iterate (v : json) : py (list json) :=
  match v with
  | JArray l => mret l
  | JString s => mret (map JString (chars s))
  | JObject d => mret (map (fun kv => JString (fst kv)) d)
  | _ => raise (not_iterable v)
  end.

(** [v.get(k, default)]: only a dict has the method. *)
Definition get (v : json) (k : string) (default : json) : py json :=
  match v with
  | JObject d => mret (dict_get d k default)
  | _ => raise (no_attribute v "get")
  end.

(** ** The objects of the agent SDK

    The events of a turn as [llama_stack_client] delivers them.  The code
    inspects them by attribute ([hasattr], [event_type], [step_type]); here
    each shape is a constructor. *)

Module Chat.

Inductive delta : Type :=
  | TextDelta (text : string)
  | ImageDelta
  | ToolCallDelta.

Record tool_call : Type := { call_tool_name : string }.

Record tool_response : Type := { tool_name : string; content : string }.

Inductive step_details : Type :=
  | inference
  | tool_execution (tool_calls : list tool_call)
                   (tool_responses : list tool_response)
  | shield_call
  | memory_retrieval.

Inductive payload : Type :=
  | turn_start
  | step_start
  | step_progress (d : delta)
  | step_complete (sd : step_details)
  | turn_complete
  | turn_awaiting_input.

(** [event_payload = None]: [response.event] has no attribute [payload]. *)
Record response : Type := { event_payload : option payload }.

(** What the interpreter and its libraries contribute. *)
Class Runtime : Type := {
  (** [json.loads] on a [str]: the value it returns, [None] when it raises *)
  json_loads : string -> option json;
  (** why it raises, on a text it returns no value for *)
  json_loads_error : string -> loads_error;
  (** [str(v)] of a parsed value that is not a [str] *)
  py_str : json -> string;
  (** [s.strip()] *)
  str_strip : string -> string;
  (** [str(e)] of an exception *)
  exn_str : exn -> string;
  (** [str] of the SDK's objects *)
  response_str : response -> string;
  payload_str : payload -> string
}.

Section Reformatter.
Context `{Runtime}.

(** [f"{v}"] and [print(v)]: a [str] is shown as it is. *)
Definition fmt (v : json) : string :=
  match v with
  | JString s => s
  | _ => py_str v
  end.

Definition loads (doc : string) : py json :=
  match json_loads doc with
  | Some v => mret v
  | None => raise (loads_exn doc (json_loads_error doc))
  end.

(** [v.strip()]: only a [str] has the method. *)
Definition strip (v : json) : py string :=
  match v with
  | JString s => mret (str_strip s)
  | _ => raise (no_attribute v "strip")
  end.

(** [isinstance(v, str) and len(v) < 100]. *)
Definition short_str (v : json) : bool :=
  match v with
  | JString s => (len s <? 100)%nat
  | _ => false
  end.

(** *** [_process_inference_step] *)

Definition final_answer_msg (answer : json) : string :=
  nl +:+ nl +:+ "✅ **Final Answer:**" +:+ nl +:+ fmt answer.

Definition parse_failure_msg (current_step_content : string) : string :=
  nl +:+ nl +:+ "Failed to parse ReAct step content:" +:+ nl +:+ "```json" +:+ nl
     +:+ current_step_content +:+ nl +:+ "```".

Definition process_failure_msg (e : exn) (current_step_content : string) : string :=
  nl +:+ nl +:+ "Failed to process ReAct step: " +:+ exn_str e +:+ nl +:+ "```json" +:+ nl
     +:+ current_step_content +:+ nl +:+ "```".

(** [answer and answer != "null" and answer is not None]. *)
Definition is_answer (answer : json) : bool :=
  truthy answer && negb (eq_str answer "null") && negb (is_None answer).

(** The value returned is the function's local [final_answer]. *)
Definition _process_inference_step (current_step_content : string)
    (tool_results : list (string * string)) (final_answer : json) : py json :=
  try_except
    (react_output_data ← loads current_step_content;
     thought ← get react_output_data "thought" py_None;
     action ← get react_output_data "action" py_None;
     answer ← get react_output_data "answer" py_None;
     let final_answer := if is_answer answer then answer else final_answer in
     (if is_answer answer then yield (final_answer_msg answer) else pass);;
     mret final_answer)
    (fun e =>
       match class_of e with
       | JSONDecodeError =>
           Some (yield (parse_failure_msg current_step_content);; mret final_answer)
       | _ =>
           Some (yield (process_failure_msg e current_step_content);; mret final_answer)
       end).

(** *** The formatters of one parsed tool result *)

Definition _format_web_search_results (parsed_content : json) : py unit :=
  top_k ← subscript parsed_content "top_k";
  results ← iterate top_k;
  for_each (enumerate results 1) (fun '(i, result) =>
    if (i <=? 3)%nat then
      title ← get result "title" (JString "Untitled");
      url ← get result "url" (JString "");
      content ← get result "content" (JString "");
      content_text ← strip content;
      yield (nl +:+ "- **" +:+ fmt title +:+ "**" +:+ nl +:+ "  " +:+ content_text +:+ nl
                +:+ "  [Source](" +:+ fmt url +:+ ")" +:+ nl)
    else pass).

(** Called with [parsed_content["results"]] once it is known to be a list. *)
Definition _format_results_list (results : list json) : py unit :=
  for_each (enumerate results 1) (fun '(i, result) =>
    if (i <=? 3)%nat then
      match result with
      | JObject d =>
          let name :=
            dict_get d "name" (dict_get d "title" (JString ("Result " +:+ str_of_nat i))) in
          let description :=
            dict_get d "description"
              (dict_get d "content" (dict_get d "summary" (JString ""))) in
          yield (nl +:+ "- **" +:+ fmt name +:+ "**" +:+ nl +:+ "  " +:+ fmt description +:+ nl)
      | _ => yield (nl +:+ "- " +:+ fmt result +:+ nl)
      end
    else pass).

(** Called with a dict; [list(parsed_content.items())[:5]] is [take 5]. *)
Definition _format_dict_results (parsed_content : list (string * json)) : py unit :=
  yield (nl +:+ "```" +:+ nl);;
  for_each (take 5 parsed_content) (fun '(key, value) =>
    if short_str value then yield (key +:+ ": " +:+ fmt value +:+ nl)
    else yield (key +:+ ": [Complex data]" +:+ nl));;
  yield ("```" +:+ nl).

(** Called with a list; [parsed_content[:3]] is [take 3]. *)
Definition _format_list_results (parsed_content : list json) : py unit :=
  yield nl;;
  for_each (enumerate (take 3 parsed_content) 1) (fun '(_, item) =>
    match item with
    | JString s => yield ("- " +:+ s +:+ nl)
    | JObject d =>
        match dict_lookup "text" d with
        | Some text => yield ("- " +:+ fmt text +:+ nl)
        | None =>
            match d with
            | (_, first_value) :: _ =>
                if short_str first_value then yield ("- " +:+ fmt first_value +:+ nl)
                else pass
            | [] => pass
            end
        end
    | _ => pass
    end).

(** *** [_format_tool_results_summary] *)

Definition summary_header : string :=
  nl +:+ nl +:+ "**Here's what I found:**" +:+ nl.

Definition complex_data_msg (tool_name : string) : string :=
  nl +:+ "**" +:+ tool_name
     +:+ "** was used but returned complex data. Check the observation for details." +:+ nl.

Definition format_error_log (tool_name : string) (e : exn) : string :=
  "Error processing " +:+ tool_name +:+ " result: " +:+ class_name (class_of e)
     +:+ ": " +:+ exn_str e.

(** [tool_name == "web_search" and "top_k" in parsed_content]. *)
Definition is_web_search (tool_name : string) (parsed_content : json) : py bool :=
  if String.eqb tool_name "web_search" then py_in "top_k" parsed_content
  else mret false.

(** ["results" in parsed_content and isinstance(parsed_content["results"], list)];
    the list is handed on to the branch that formats it. *)
Definition results_list (parsed_content : json) : py (option (list json)) :=
  present ← py_in "results" parsed_content;
  if (present : bool) then
    results ← subscript parsed_content "results";
    mret (match results with JArray l => Some l | _ => None end)
  else mret None.

(** The body of the [try] for one recorded pair. *)
Definition format_tool_result (tool_name content : string) : py unit :=
  parsed_content ← loads content;
  web ← is_web_search tool_name parsed_content;
  if (web : bool) then _format_web_search_results parsed_content
  else
    results ← results_list parsed_content;
    match results with
    | Some l => _format_results_list l
    | None =>
        match parsed_content with
        | JObject ((_ :: _) as d) => _format_dict_results d
        | JArray ((_ :: _) as l) => _format_list_results l
        | _ => pass
        end
    end.

(** The two [except] clauses of the summary loop; an exception of another
    class matches neither. *)
Definition summary_handler (tool_name : string) (e : exn) : option (py unit) :=
  match class_of e with
  | JSONDecodeError => Some (yield (complex_data_msg tool_name))
  | TypeError | AttributeError | KeyError | IndexError =>
      Some (print (format_error_log tool_name e))
  | ValueError | RecursionError => None
  end.

Definition summarise_tool_result (entry : string * string) : py unit :=
  let '(tool_name, content) := entry in
  try_except (format_tool_result tool_name content) (summary_handler tool_name).

Definition _format_tool_results_summary (tool_results : list (string * string)) : py unit :=
  yield summary_header;;
  for_each tool_results summarise_tool_result.

(** *** [_process_tool_execution] *)

(** The inner [try] of the loop: show the parsed content, or, when the
    content is no JSON, call [print(content, language=None)], a keyword
    [print] does not have. *)
Definition show_content (content : string) : py unit :=
  try_except
    (parsed_content ← loads content; print (fmt parsed_content))
    (fun e =>
       match class_of e with
       | JSONDecodeError => Some (raise (bad_keyword "print" "language"))
       | _ => None
       end).

(** The [for] loop over [step_details.tool_responses].  [tool_results] is a
    list object shared with the caller and [append] changes it in place, so
    the loop hands back, next to its outcome, the list as it left it. *)
Fixpoint record_tool_responses (tool_responses : list tool_response)
    (tool_results : list (string * string)) : py unit * list (string * string) :=
  match tool_responses with
  | [] => (pass, tool_results)
  | tool_response :: rest =>
      let tool_results :=
        tool_results ++ [(tool_name tool_response, content tool_response)] in
      match print "";; show_content (content tool_response) with
      | (t, Return _) =>
          let '((t', r), tool_results) := record_tool_responses rest tool_results in
          ((t ++ t', r), tool_results)
      | (t, Raise e) => ((t, Raise e), tool_results)
      end
  end.

Definition tool_error_log (e : exn) : string :=
  ":red[_Error processing tool execution: " +:+ exn_str e +:+ "_]".

Definition _process_tool_execution (step_details : step_details)
    (tool_results : list (string * string)) : py (list (string * string)) :=
  let '(body, tool_results) :=
    match step_details with
    | tool_execution _ ((_ :: _) as tool_responses) =>
        record_tool_responses tool_responses tool_results
    | _ =>
        (print "⚙️ Observation";;
         print ":grey[_Tool execution step completed, but no response data found._]",
         tool_results)
    end in
  try_except body (fun e => Some (print (tool_error_log e)));;
  mret tool_results.

(** *** [_handle_react_response] *)

Record react_state : Type := {
  current_step_content : string;
  final_answer : json;
  tool_results : list (string * string)
}.

Definition react_init : react_state :=
  {| current_step_content := ""; final_answer := py_None; tool_results := [] |}.

Definition malformed_msg (response : response) : string :=
  nl +:+ nl +:+ "🚨 :red[_Llama Stack server Error:_]" +:+ nl
     +:+ "The response received is missing an expected `payload` attribute." +:+ nl
     +:+ "This could indicate a malformed response or an internal issue within the server."
     +:+ nl +:+ nl +:+ "Error details: " +:+ response_str response.

(** How one pass through the loop body ends: on to the next event with the
    local variables as they are now, or [return]. *)
Inductive control : Type :=
  | Next (st : react_state)
  | Stop.

(** The body of the [for] loop.  The value [_process_inference_step]
    returns is the value of the [yield from] expression, which is a
    statement of its own here: nothing is assigned. *)
Definition react_event (st : react_state) (response : response) : py control :=
  match event_payload response with
  | None => yield (malformed_msg response);; mret Stop
  | Some payload =>
      match payload with
      | step_progress (TextDelta text) =>
          mret (Next {| current_step_content := current_step_content st +:+ text;
                        final_answer := final_answer st;
                        tool_results := tool_results st |})
      | step_complete inference =>
          _ ← _process_inference_step (current_step_content st) (tool_results st)
                (final_answer st);
          mret (Next {| current_step_content := "";
                        final_answer := final_answer st;
                        tool_results := tool_results st |})
      | step_complete ((tool_execution _ _) as step_details) =>
          tool_results ← _process_tool_execution step_details (tool_results st);
          mret (Next {| current_step_content := "";
                        final_answer := final_answer st;
                        tool_results := tool_results |})
      | step_complete _ =>
          mret (Next {| current_step_content := "";
                        final_answer := final_answer st;
                        tool_results := tool_results st |})
      | _ => mret (Next st)
      end
  end.

(** The [for] loop. *)
Fixpoint react_for (turn_response : list response) (st : react_state) : py control :=
  match turn_response with
  | [] => mret (Next st)
  | response :: rest =>
      c ← react_event st response;
      match c with
      | Next st' => react_for rest st'
      | Stop => mret Stop
      end
  end.

(** [not final_answer and tool_results], the test after the loop. *)
Definition wants_summary (st : react_state) : bool :=
  negb (truthy (final_answer st)) &&
  match tool_results st with [] => false | _ :: _ => true end.

Definition _handle_react_response (turn_response : list response) : py unit :=
  c ← react_for turn_response react_init;
  match c with
  | Next st =>
      if wants_summary st then _format_tool_results_summary (tool_results st)
      else pass
  | Stop => mret tt
  end.

(** *** [_handle_regular_response] *)

Definition using_tool_msg (tool_name : string) : string :=
  nl +:+ nl +:+ "🛠 :grey[_Using " +:+ dq +:+ tool_name +:+ dq +:+ " tool:_]" +:+ nl +:+ nl.

Definition regular_event (response : response) : py unit :=
  match event_payload response with
  | Some payload =>
      print (payload_str payload);;
      (match payload with
       | step_progress (TextDelta text) => yield text
       | _ => pass
       end);;
      match payload with
      | step_complete (tool_execution tool_calls _) =>
          match tool_calls with
          | first :: _ => yield (using_tool_msg (call_tool_name first))
          | [] => yield "No tool_calls present in step_details"
          end
      | _ => pass
      end
  | None =>
      yield ("Error occurred in the Llama Stack Cluster: " +:+ response_str response)
  end.

Definition _handle_regular_response (turn_response : list response) : py unit :=
  for_each turn_response regular_event.

(** *** The specification's rule for a line of a dict-shaped result

    Written from the specification, to be compared with the loop of
    [_format_dict_results]: a string under 100 characters is shown after
    its key, any other value as [[Complex data]]. *)
Definition spec_dict_line (entry : string * json) : string :=
  let '(key, value) := entry in
  match value with
  | JString s =>
      if (len s <? 100)%nat then key +:+ ": " +:+ s +:+ nl
      else key +:+ ": [Complex data]" +:+ nl
  | _ => key +:+ ": [Complex data]" +:+ nl
  end.

(** *** Events and pairs the properties speak of *)

(** A [StepProgress] event with a text delta. *)
Definition progress_event (text : string) : response :=
  {| event_payload := Some (step_progress (TextDelta text)) |}.

(** The exceptions the second [except] clause of the summary names. *)
Definition formatting_error (e : exn) : bool :=
  match class_of e with
  | TypeError | AttributeError | KeyError | IndexError => true
  | _ => false
  end.

(** A computation that, if it raises, raises a formatting error. *)
Definition no_decode_error {A} (m : py A) : Prop :=
  forall e, result m = Raise e -> formatting_error e = true.

(** A content on which [json.loads] returns a value or raises
    [JSONDecodeError], and no other error. *)
Definition loads_caught (content : string) : Prop :=
  json_loads content = None -> json_loads_error content = invalid_json.

(** The parsed values the summary has a shape for: an object or a list
    that is not empty. *)
Definition structured (v : json) : bool :=
  match v with
  | JObject (_ :: _) | JArray (_ :: _) => true
  | _ => false
  end.


End Reformatter.
End Chat.

(** ** The user routes *)

Module Users.

(** Modelled from the spec: the declarations [schemas.UserCreate] and
    [models.User] are not among the sources; the records carry the
    attributes the routes read and write. *)
Module schemas.
Record UserCreate : Type := {
  username : string;
  email : string;
  password : string;
  role : string
}.
End schemas.

Module models.
Record User : Type := {
  id : N;
  username : string;
  email : string;
  password_hash : string;
  role : string
}.
End models.

(** What the route handlers answer: the value of a successful call, an
    [HTTPException], or the error of a commit the database refuses. *)
Inductive reply (A : Type) : Type :=
  | Ok (a : A)
  | HTTPException (status_code : nat) (detail : string)
  | IntegrityError.
Arguments Ok {A} a.
Arguments HTTPException {A} status_code detail.
Arguments IntegrityError {A}.

(** What the libraries contribute: [bcrypt.hashpw] of a password and a
    salt, and whether the users table, with its constraints, admits a
    content at commit. *)
Class Backend : Type := {
  hashpw : string -> string -> string;
  admits : gmap N models.User -> bool
}.

Section Routes.
Context `{Backend}.

(** [db.commit()]: the new content is kept, or the commit fails and the
    table is as before. *)
Definition commit {A} (a : A) (db db' : gmap N models.User)
    : reply A * gmap N models.User :=
  if admits db' then (Ok a, db') else (IntegrityError, db).

(** [salt] is the value of [bcrypt.gensalt()], [new_id] the primary key the
    table gives the new row. *)
Definition create_user (user : schemas.UserCreate) (salt : string) (new_id : N)
    (db : gmap N models.User) : reply models.User * gmap N models.User :=
  let hashed_password := hashpw (schemas.password user) salt in
  let db_user :=
    {| models.id := new_id;
       models.username := schemas.username user;
       models.email := schemas.email user;
       models.password_hash := hashed_password;
       models.role := schemas.role user |} in
  match db !! new_id with
  | None => commit db_user db (<[new_id := db_user]> db)
  | Some _ => (IntegrityError, db)
  end.

Definition update_user (user_id : N) (user : schemas.UserCreate)
    (db : gmap N models.User) : reply models.User * gmap N models.User :=
  match db !! user_id with
  | None => (HTTPException 404 "User not found", db)
  | Some db_user =>
      let db_user :=
        {| models.id := models.id db_user;
           models.username := schemas.username user;
           models.email := schemas.email user;
           models.password_hash := schemas.password user;
           models.role := schemas.role user |} in
      commit db_user db (<[user_id := db_user]> db)
  end.

(** [result.scalars().all()] on the users table: its rows, in an order that
    is the database's to choose. *)
Definition rows (db : gmap N models.User) : list models.User :=
  (map_to_list db).*2.

Definition read_users (db : gmap N models.User) : reply (list models.User) :=
  Ok (rows db).

(** [GET /{user_id}]: the key of the table is the id, so the query has one
    row at most. *)
Definition read_user (user_id : N) (db : gmap N models.User) : reply models.User :=
  match db !! user_id with
  | None => HTTPException 404 "User not found"
  | Some user => Ok user
  end.

(** What [scalar_one_or_none] makes of the rows of a query: [None], the one
    row, or the error [MultipleResultsFound]. *)
Inductive scalar (A : Type) : Type :=
  | NoRow
  | OneRow (a : A)
  | MultipleResultsFound.
Arguments NoRow {A}.
Arguments OneRow {A} a.
Arguments MultipleResultsFound {A}.

Definition scalar_one_or_none {A} (result : list A) : scalar A :=
  match result with
  | [] => NoRow
  | [a] => OneRow a
  | _ :: _ :: _ => MultipleResultsFound
  end.

(** [GET /username/{username}], the second function the source names
    [read_user]; [None] stands for the error of [scalar_one_or_none], which
    the handler does not catch. *)
Definition read_user_by_username (username : string) (db : gmap N models.User)
    : option (reply models.User) :=
  match scalar_one_or_none
          (List.filter (fun user => String.eqb (models.username user) username) (rows db)) with
  | NoRow => Some (HTTPException 404 "User not found")
  | OneRow user => Some (Ok user)
  | MultipleResultsFound => None
  end.

Definition delete_user (user_id : N) (db : gmap N models.User)
    : reply unit * gmap N models.User :=
  match db !! user_id with
  | None => (HTTPException 404 "User not found", db)
  | Some db_user => commit tt db (delete user_id db)
  end.

End Routes.
End Users.

(** ** The chat object: components, session state, agent and stream

    The methods of [Chat] around the reformatter.  [_fetch_components]
    reads tables whose declarations are not among the sources; what it
    would do is an input of [stream]. *)

Module Session.

Inductive AgentType : Type := REGULAR | REACT.

(** The entries of [self.components], with the keys the methods read. *)
Record model_server_entry : Type := { model_name : string }.
Record knowledge_base_entry : Type := { vector_db_name : string }.
Record tool_entry : Type := { name : string }.

Record components : Type := {
  model_server : model_server_entry;
  knowledge_bases : list knowledge_base_entry;
  tools : list tool_entry
}.

(** [self.session_state], a dict with three keys at most; a key that is
    absent is [None] here. *)
Record session_state : Type := {
  agent_type : option AgentType;
  messages : option (list string);
  agent_session_id : option string
}.

Record chat : Type := {
  user_id : N;
  virtual_assistant_id : N;
  session : session_state;
  chat_components : option components
}.

Definition __init__ (user_id virtual_assistant_id : N) : chat :=
  {| user_id := user_id;
     virtual_assistant_id := virtual_assistant_id;
     session := {| agent_type := Some REGULAR; messages := Some [];
                   agent_session_id := None |};
     chat_components := None |}.

(** [self.session_state.clear()]. *)
Definition _reset_agent (self : chat) : chat :=
  {| user_id := user_id self;
     virtual_assistant_id := virtual_assistant_id self;
     session := {| agent_type := None; messages := None; agent_session_id := None |};
     chat_components := chat_components self |}.

(** What the Llama Stack client lists when asked. *)
Record model_info : Type := { identifier : string; api_model_type : string }.
Record client : Type := {
  toolgroups_list : list string;      (* the identifiers of toolgroups.list() *)
  models_list : list model_info       (* models.list() *)
}.

(** An element of the list [_get_tools] returns: the name of an MCP tool,
    or the dict of the RAG tool with its [vector_db_ids]. *)
Inductive tool : Type :=
  | mcp_tool (name : string)
  | rag_tool (vector_db_ids : list string).

Definition _get_tools (self : chat) (c : client) : list tool :=
  match chat_components self with
  | None => []
  | Some comps =>
      let tool_groups_list := toolgroups_list c in
      let mcp_tools_list := map (fun t => mcp_tool (name t)) (tools comps) in
      match mcp_tools_list with
      | [] => []
      | _ :: _ =>
          if existsb (String.eqb "builtin::rag") tool_groups_list
             && match knowledge_bases comps with [] => false | _ :: _ => true end
          then
            let vector_db_ids := map vector_db_name (knowledge_bases comps) in
            mcp_tools_list ++ [rag_tool vector_db_ids]
          else mcp_tools_list
      end
  end.

(** The errors of these methods that are not in [exn]. *)
Inductive error : Type :=
  | ValueError (msg : string)      (* raised by _fetch_components *)
  | IndexError_empty_list          (* model_list[0] *)
  | TypeError_async_for            (* async for over a plain generator *)
  | TypeError_not_iterable         (* for over an asynchronous generator *)
  | Uncaught (e : exn).

Inductive attempt (A : Type) : Type :=
  | Got (a : A)
  | Failed (e : error).
Arguments Got {A} a.
Arguments Failed {A} e.

(** [self.components["model_server"]] is a dict of five keys, so it is
    true whenever the components are. *)
Definition _get_model (self : chat) (c : client) : attempt string :=
  match chat_components self with
  | None =>
      let model_list :=
        map identifier
          (List.filter (fun m => String.eqb (api_model_type m) "llm") (models_list c)) in
      match model_list with
      | first :: _ => Got first
      | [] => Failed IndexError_empty_list
      end
  | Some comps => Got (model_name (model_server comps))
  end.

(** The agent [_create_agent] builds, by what it is given; both use greedy
    sampling, the ReAct agent has the JSON schema of [ReActOutput] as its
    response format. *)
Inductive agent : Type :=
  | ReActAgent (model : string) (tools : list tool) (max_tokens : nat)
  | Agent (model : string) (instructions : string) (tools : list tool) (max_tokens : nat).

Definition _create_agent (agent_type : AgentType) (model : string) (tools : list tool)
    (max_tokens : nat) : agent :=
  match agent_type with
  | REACT => ReActAgent model tools max_tokens
  | REGULAR =>
      Agent model
        "You are a helpful assistant. When you use a tool always respond with a summary of the result."
        tools max_tokens
  end.

(** What a call of a function with [yield] returns, by the items it
    gives: a plain generator when the function is a [def], which [for]
    walks and [async for] refuses for want of [__aiter__]; an asynchronous
    generator when it is an [async def], which [async for] walks and [for]
    refuses. *)
Inductive iterable (A : Type) : Type :=
  | generator (items : list A)
  | async_generator (items : list A).
Arguments generator {A} items.
Arguments async_generator {A} items.

(** [for x in it]: the items, or the [TypeError]. *)
Definition for_in {A} (it : iterable A) : attempt (list A) :=
  match it with
  | generator items => Got items
  | async_generator _ => Failed TypeError_not_iterable
  end.

(** [async for x in it]: the items, or the [TypeError]. *)
Definition async_for_in {A} (it : iterable A) : attempt (list A) :=
  match it with
  | async_generator items => Got items
  | generator _ => Failed TypeError_async_for
  end.

(** What the agent of the SDK answers: the id of a new session, and for a
    turn with [stream=True] the object that gives its events.  The
    synchronous [Agent] that [chat.py] imports answers with a plain
    generator. *)
Class SDK : Type := {
  create_session : agent -> string -> string;
  create_turn : agent -> string -> string -> iterable Chat.response
}.

Section Stream.
Context `{Chat.Runtime} `{SDK}.

(** How a generator of this class ends, from how the reformatter ends. *)
Definition ended (m : py unit) : list effect * attempt unit :=
  match m with
  | (t, Return _) => (t, Got tt)
  | (t, Raise e) => (t, Failed (Uncaught e))
  end.

(** A generator object of this class: what running its body to the end
    does, and whether [async for] can walk it. *)
Inductive generator_object : Type :=
  | plain (body : list effect * attempt unit)
  | asynchronous (body : list effect * attempt unit).

(** [async for response in g: yield response]. *)
Definition async_for (g : generator_object) : list effect * attempt unit :=
  match g with
  | asynchronous body => body
  | plain _ => ([], Failed TypeError_async_for)
  end.

(** The method [_handle_react_response], a [def]: a plain generator whose
    body walks [turn_response] with [for]. *)
Definition _handle_react_response (turn_response : iterable Chat.response)
    : generator_object :=
  plain
    match for_in turn_response with
    | Got events => ended (Chat._handle_react_response events)
    | Failed e => ([], Failed e)
    end.

(** The method [_handle_regular_response], an [async def]: an asynchronous
    generator whose body walks [turn_response] with [async for]. *)
Definition _handle_regular_response (turn_response : iterable Chat.response)
    : generator_object :=
  asynchronous
    match async_for_in turn_response with
    | Got events => ended (Chat._handle_regular_response events)
    | Failed e => ([], Failed e)
    end.

(** Both branches walk what the handler returns with [async for]. *)
Definition _response_generator (self : chat) (turn_response : iterable Chat.response)
    : list effect * attempt unit :=
  match agent_type (session self) with
  | Some REACT => async_for (_handle_react_response turn_response)
  | _ => async_for (_handle_regular_response turn_response)
  end.

(** [stream(prompt, db)].  [fetched] is what [_fetch_components(db)] would
    give on this database, the components or its [ValueError]; [uuid] is
    [uuid.uuid4()] as a string; [agent_type'] is the local [agent_type].
    The chat object is handed back as the call leaves it. *)
Definition stream (self : chat) (prompt : string) (fetched : attempt components)
    (uuid : string) (c : client) : chat * (list effect * attempt unit) :=
  match
    match chat_components self with
    | Some comps => Got comps
    | None => fetched
    end
  with
  | Failed e => (self, ([], Failed e))
  | Got comps =>
      let agent_type' := REGULAR in
      let self :=
        {| user_id := user_id self;
           virtual_assistant_id := virtual_assistant_id self;
           session := {| agent_type := Some agent_type';
                         messages := messages (session self);
                         agent_session_id := agent_session_id (session self) |};
           chat_components := Some comps |} in
      let max_tokens := 512%nat in
      match _get_model self c with
      | Failed e => (self, ([], Failed e))
      | Got model =>
          let agent := _create_agent agent_type' model (_get_tools self c) max_tokens in
          let session_id :=
            match agent_session_id (session self) with
            | Some id => id
            | None => create_session agent ("tool_demo_" +:+ uuid)
            end in
          let self :=
            {| user_id := user_id self;
               virtual_assistant_id := virtual_assistant_id self;
               session := {| agent_type := agent_type (session self);
                             messages := messages (session self);
                             agent_session_id := Some session_id |};
               chat_components := chat_components self |} in
          let turn_response := create_turn agent session_id prompt in
          (self, _response_generator self turn_response)
      end
  end.

End Stream.
End Session.

(** ** A runtime to run the model on concrete texts

    An instance of [Chat.Runtime] for the examples: a reader for JSON texts
    whose numbers are integers and whose strings have no [\u] escape (it
    rejects the others) and whose nesting stays within what the
    interpreter recurses, with the limit of CPython on the digits of an
    integer; the messages of CPython 3.12; [str] of the values such texts
    give; [strip] for ASCII white space. *)

Module Reference.

Definition is_ws (c : ascii) : bool :=
  let n := nat_of_ascii c in
  (n =? 32)%nat || (n =? 9)%nat || (n =? 10)%nat || (n =? 13)%nat.

Fixpoint skip_ws (s : string) : string :=
  match s with
  | String c s' => if is_ws c then skip_ws s' else s
  | EmptyString => s
  end.

Definition unescape (c : ascii) : option ascii :=
  let n := nat_of_ascii c in
  if (n =? 34)%nat then Some c                       (* quote *)
  else if (n =? 92)%nat then Some c                  (* backslash *)
  else if (n =? 47)%nat then Some c                  (* slash *)
  else if (n =? 98)%nat then Some (ascii_of_nat 8)   (* b: backspace *)
  else if (n =? 102)%nat then Some (ascii_of_nat 12) (* f: form feed *)
  else if (n =? 110)%nat then Some (ascii_of_nat 10) (* n: line feed *)
  else if (n =? 114)%nat then Some (ascii_of_nat 13) (* r: carriage return *)
  else if (n =? 116)%nat then Some (ascii_of_nat 9)  (* t: tab *)
  else None.

(** The characters of a string literal after its opening quote, up to the
    closing one. *)
Fixpoint read_string (s : string) : option (string * string) :=
  match s with
  | EmptyString => None
  | String c s' =>
      let n := nat_of_ascii c in
      if (n =? 34)%nat then Some (EmptyString, s')
      else if (n =? 92)%nat then
        match s' with
        | String e s'' =>
            match unescape e with
            | Some c' =>
                match read_string s'' with
                | Some (r, rest) => Some (String c' r, rest)
                | None => None
                end
            | None => None
            end
        | EmptyString => None
        end
      else if (n <? 32)%nat then None
      else
        match read_string s' with
        | Some (r, rest) => Some (String c r, rest)
        | None => None
        end
  end.

(** What the reader makes of a text: a value and the rest of the text, or
    the reason [json.loads] raises. *)
Inductive reading (A : Type) : Type :=
  | Read (a : A) (rest : string)
  | Reject (why : loads_error).
Arguments Read {A} a rest.
Arguments Reject {A} why.

Definition digit (c : ascii) : option Z :=
  let n := nat_of_ascii c in
  if (48 <=? n)%nat && (n <=? 57)%nat then Some (Z.of_nat (n - 48)) else None.

(** The digits [s] starts with, added to [acc], and how many there are with
    the [count] before them. *)
Fixpoint read_digits (s : string) (acc : Z) (count : nat) : Z * nat * string :=
  match s with
  | String c s' =>
      match digit c with
      | Some d => read_digits s' (10 * acc + d)%Z (S count)
      | None => (acc, count, s)
      end
  | EmptyString => (acc, count, s)
  end.

(** [sys.int_info.default_max_str_digits]. *)
Definition max_str_digits : nat := 4300.

(** An integer without sign: [0], or digits that do not start with [0];
    a fraction or an exponent after it is outside this reader, and an
    integer of more than [max_str_digits] digits is not converted. *)
Definition read_nat (s : string) : reading Z :=
  match s with
  | String c s' =>
      match digit c with
      | Some d =>
          let '(n, count, rest) :=
            if (d =? 0)%Z then (0%Z, 1%nat, s') else read_digits s' d 1 in
          let outside :=
            match rest with
            | String c' _ =>
                let k := nat_of_ascii c' in
                (k =? 46)%nat || (k =? 101)%nat || (k =? 69)%nat
            | EmptyString => false
            end in
          if outside then Reject invalid_json
          else if (max_str_digits <? count)%nat then Reject (too_many_digits count)
          else Read n rest
      | None => Reject invalid_json
      end
  | EmptyString => Reject invalid_json
  end.

Fixpoint drop_prefix (p s : string) : option string :=
  match p, s with
  | EmptyString, _ => Some s
  | String a p', String b s' => if Ascii.eqb a b then drop_prefix p' s' else None
  | String _ _, EmptyString => None
  end.

(** [d[k] = v]: a key already present keeps its place. *)
Fixpoint dict_set (k : string) (v : json) (d : list (string * json))
    : list (string * json) :=
  match d with
  | [] => [(k, v)]
  | (k', v') :: d' =>
      if String.eqb k k' then (k, v) :: d' else (k', v') :: dict_set k v d'
  end.

Definition read_scalar (s : string) : reading json :=
  match drop_prefix "null" s with Some r => Read JNull r | None =>
  match drop_prefix "true" s with Some r => Read (JBool true) r | None =>
  match drop_prefix "false" s with Some r => Read (JBool false) r | None =>
  match drop_prefix "NaN" s with Some r => Read (JFloat S754_nan) r | None =>
  match drop_prefix "Infinity" s with
  | Some r => Read (JFloat (S754_infinity false)) r | None =>
  match drop_prefix "-Infinity" s with
  | Some r => Read (JFloat (S754_infinity true)) r | None =>
  match drop_prefix "-" s with
  | Some r =>
      match read_nat r with
      | Read n rest => Read (JInt (- n)) rest
      | Reject why => Reject why
      end
  | None =>
      match read_nat s with
      | Read n rest => Read (JInt n) rest
      | Reject why => Reject why
      end
  end end end end end end end.

Fixpoint read_value (fuel : nat) (s : string) : reading json :=
  match fuel with
  | O => Reject invalid_json
  | S fuel =>
      match s with
      | String c s' =>
          let n := nat_of_ascii c in
          if (n =? 123)%nat then                   (* { *)
            match skip_ws s' with
            | String c' r =>
                if (nat_of_ascii c' =? 125)%nat then Read (JObject []) r
                else read_members fuel (String c' r) []
            | EmptyString => Reject invalid_json
            end
          else if (n =? 91)%nat then               (* [ *)
            match skip_ws s' with
            | String c' r =>
                if (nat_of_ascii c' =? 93)%nat then Read (JArray []) r
                else read_items fuel (String c' r) []
            | EmptyString => Reject invalid_json
            end
          else if (n =? 34)%nat then
            match read_string s' with
            | Some (str, r) => Read (JString str) r
            | None => Reject invalid_json
            end
          else read_scalar s
      | EmptyString => Reject invalid_json
      end
  end
with read_items (fuel : nat) (s : string) (acc : list json) : reading json :=
  match fuel with
  | O => Reject invalid_json
  | S fuel =>
      match read_value fuel s with
      | Read v r =>
          match skip_ws r with
          | String c r' =>
              if (nat_of_ascii c =? 44)%nat then read_items fuel (skip_ws r') (acc ++ [v])
              else if (nat_of_ascii c =? 93)%nat then Read (JArray (acc ++ [v])) r'
              else Reject invalid_json
          | EmptyString => Reject invalid_json
          end
      | Reject why => Reject why
      end
  end
with read_members (fuel : nat) (s : string) (acc : list (string * json))
    : reading json :=
  match fuel with
  | O => Reject invalid_json
  | S fuel =>
      match s with
      | String q s' =>
          if (nat_of_ascii q =? 34)%nat then
            match read_string s' with
            | Some (k, r) =>
                match skip_ws r with
                | String c r' =>
                    if (nat_of_ascii c =? 58)%nat then
                      match read_value fuel (skip_ws r') with
                      | Read v r'' =>
                          match skip_ws r'' with
                          | String c' rest =>
                              if (nat_of_ascii c' =? 44)%nat then
                                read_members fuel (skip_ws rest) (dict_set k v acc)
                              else if (nat_of_ascii c' =? 125)%nat then
                                Read (JObject (dict_set k v acc)) rest
                              else Reject invalid_json
                          | EmptyString => Reject invalid_json
                          end
                      | Reject why => Reject why
                      end
                    else Reject invalid_json
                | EmptyString => Reject invalid_json
                end
            | None => Reject invalid_json
            end
          else Reject invalid_json
      | EmptyString => Reject invalid_json
      end
  end.

(** The whole text: one value between white space. *)
Definition read_document (doc : string) : reading json :=
  match read_value (S (String.length doc)) (skip_ws doc) with
  | Read v r =>
      match skip_ws r with
      | EmptyString => Read v EmptyString
      | String _ _ => Reject invalid_json
      end
  | Reject why => Reject why
  end.

Definition json_loads (doc : string) : option json :=
  match read_document doc with
  | Read v _ => Some v
  | Reject _ => None
  end.

Definition json_loads_error (doc : string) : loads_error :=
  match read_document doc with
  | Read _ _ => invalid_json
  | Reject why => why
  end.

Fixpoint join (sep : string) (l : list string) : string :=
  match l with
  | [] => ""
  | [x] => x
  | x :: l' => x +:+ sep +:+ join sep l'
  end.

Definition quoted (s : string) : string := "'" +:+ s +:+ "'".

(** [repr(v)]; a string is shown between single quotes, as [repr] does when
    it holds no quote, backslash or control character. *)
Fixpoint repr (v : json) : string :=
  match v with
  | JNull => "None"
  | JBool true => "True"
  | JBool false => "False"
  | JInt n => NilEmpty.string_of_int (Z.to_int n)
  | JFloat S754_nan => "nan"
  | JFloat (S754_infinity false) => "inf"
  | JFloat (S754_infinity true) => "-inf"
  | JFloat (S754_zero false) => "0.0"
  | JFloat (S754_zero true) => "-0.0"
  | JFloat (S754_finite _ _ _) => "<float>"
  | JString s => quoted s
  | JArray l => "[" +:+ join ", " (map repr l) +:+ "]"
  | JObject d =>
      "{" +:+ join ", " (map (fun '(k, x) => quoted k +:+ ": " +:+ repr x) d) +:+ "}"
  end.

Definition is_space (c : ascii) : bool :=
  let n := nat_of_ascii c in
  (n =? 32)%nat || ((9 <=? n)%nat && (n <=? 13)%nat) || ((28 <=? n)%nat && (n <=? 31)%nat).

Fixpoint lstrip (s : string) : string :=
  match s with
  | String c s' => if is_space c then lstrip s' else s
  | EmptyString => s
  end.

Fixpoint rstrip (s : string) : string :=
  match s with
  | String c s' =>
      match rstrip s' with
      | EmptyString => if is_space c then EmptyString else String c EmptyString
      | r => String c r
      end
  | EmptyString => s
  end.

Definition exn_str (e : exn) : string :=
  match e with
  | not_json _ => "Expecting value"
  | integer_too_long digits =>
      "Exceeds the limit (4300 digits) for integer string conversion: value has "
        +:+ str_of_nat digits
        +:+ " digits; use sys.set_int_max_str_digits() to increase the limit"
  | nesting_too_deep _ => "maximum recursion depth exceeded"
  | no_attribute obj attr =>
      quoted (type_name obj) +:+ " object has no attribute " +:+ quoted attr
  | not_a_container obj =>
      "argument of type " +:+ quoted (type_name obj) +:+ " is not iterable"
  | bad_subscript (JString _) _ => "string indices must be integers, not 'str'"
  | bad_subscript (JArray _) _ => "list indices must be integers or slices, not str"
  | bad_subscript obj _ => quoted (type_name obj) +:+ " object is not subscriptable"
  | missing_key key => quoted key
  | not_iterable obj => quoted (type_name obj) +:+ " object is not iterable"
  | bad_keyword callee kw =>
      quoted kw +:+ " is an invalid keyword argument for " +:+ callee +:+ "()"
  end.

Definition payload_str (p : Chat.payload) : string :=
  match p with
  | Chat.turn_start => "turn_start"
  | Chat.step_start => "step_start"
  | Chat.step_progress _ => "step_progress"
  | Chat.step_complete _ => "step_complete"
  | Chat.turn_complete => "turn_complete"
  | Chat.turn_awaiting_input => "turn_awaiting_input"
  end.

Definition response_str (r : Chat.response) : string :=
  match Chat.event_payload r with
  | Some p => "event(payload=" +:+ payload_str p +:+ ")"
  | None => "event()"
  end.

#[export] Instance runtime : Chat.Runtime := {|
  Chat.json_loads := json_loads;
  Chat.json_loads_error := json_loads_error;
  Chat.py_str := repr;
  Chat.str_strip := fun s => rstrip (lstrip s);
  Chat.exn_str := exn_str;
  Chat.response_str := response_str;
  Chat.payload_str := payload_str
|}.

(** No example depends on what [bcrypt] computes; a tagged concatenation
    keeps the hash apart from the password. *)
#[export] Instance backend : Users.Backend := {|
  Users.hashpw := fun password salt => salt +:+ "$" +:+ password;
  Users.admits := fun _ => true
|}.

(** Texts and events of the examples.  A JSON text is written with
    apostrophes where it has double quotes. *)
Fixpoint json_text (s : string) : string :=
  match s with
  | EmptyString => EmptyString
  | String c s' =>
      String (if (nat_of_ascii c =? 39)%nat then ascii_of_nat 34 else c) (json_text s')
  end.

Definition answer_text (answer : string) : string :=
  json_text ("{'answer': '" +:+ answer +:+ "'}").

Definition status_text : string := json_text "{'status': 'ok'}".

Definition ev (p : Chat.payload) : Chat.response := {| Chat.event_payload := Some p |}.
Definition malformed : Chat.response := {| Chat.event_payload := None |}.

Definition tool_step (rs : list (string * string)) : Chat.response :=
  ev (Chat.step_complete (Chat.tool_execution []
        (map (fun '(n, c) => {| Chat.tool_name := n; Chat.content := c |}) rs))).
Definition progress (text : string) : Chat.response :=
  ev (Chat.step_progress (Chat.TextDelta text)).
Definition inference_step : Chat.response :=
  ev (Chat.step_complete Chat.inference).

(** The users of the examples. *)
Definition ada_request : Users.schemas.UserCreate :=
  {| Users.schemas.username := "ada"; Users.schemas.email := "ada@example.org";
     Users.schemas.password := "s3cret"; Users.schemas.role := "admin" |}.

Definition ada_before : Users.models.User :=
  {| Users.models.id := 7; Users.models.username := "ada";
     Users.models.email := "old@example.org";
     Users.models.password_hash := "salt$old"; Users.models.role := "user" |}.

Definition ada_updated : Users.models.User :=
  {| Users.models.id := 7; Users.models.username := "ada";
     Users.models.email := "ada@example.org";
     Users.models.password_hash := "s3cret"; Users.models.role := "admin" |}.

Definition bob : Users.models.User :=
  {| Users.models.id := 8; Users.models.username := "bob";
     Users.models.email := "bob@example.org";
     Users.models.password_hash := "salt$pw"; Users.models.role := "user" |}.

Definition bob_request : Users.schemas.UserCreate :=
  {| Users.schemas.username := "bob"; Users.schemas.email := "bob@example.org";
     Users.schemas.password := "pw"; Users.schemas.role := "user" |}.

Definition one_user : gmap N Users.models.User := {[ 7%N := ada_before ]}.
Definition two_users : gmap N Users.models.User := <[ 8%N := bob ]> one_user.

(** The chat objects of the examples: an assistant with two MCP tools and
    one knowledge base, and a client that lists an embedding model before
    two language models. *)
Definition assistant : Session.components :=
  {| Session.model_server := {| Session.model_name := "granite" |};
     Session.knowledge_bases := [{| Session.vector_db_name := "docs-v1" |}];
     Session.tools := [{| Session.name := "weather" |}; {| Session.name := "search" |}] |}.

Definition llama_client : Session.client :=
  {| Session.toolgroups_list := ["builtin::websearch"; "builtin::rag"];
     Session.models_list :=
       [{| Session.identifier := "minilm"; Session.api_model_type := "embedding" |};
        {| Session.identifier := "llama"; Session.api_model_type := "llm" |};
        {| Session.identifier := "mistral"; Session.api_model_type := "llm" |}] |}.

Definition embedding_client : Session.client :=
  {| Session.toolgroups_list := [];
     Session.models_list :=
       [{| Session.identifier := "minilm"; Session.api_model_type := "embedding" |}] |}.

Definition fresh_chat : Session.chat := Session.__init__ 1 2.

(** A chat that has its components and whose session state says ReAct. *)
Definition react_chat : Session.chat :=
  {| Session.user_id := 1; Session.virtual_assistant_id := 2;
     Session.session := {| Session.agent_type := Some Session.REACT;
                           Session.messages := Some [];
                           Session.agent_session_id := None |};
     Session.chat_components := Some assistant |}.

(** An SDK for the examples: the session id is the session name, and a
    turn echoes the prompt as two text deltas around a step start, from a
    plain generator as the synchronous agent gives it. *)
#[export] Instance sdk : Session.SDK := {|
  Session.create_session := fun _ session_name => session_name;
  Session.create_turn := fun _ _ prompt =>
    Session.generator [progress prompt; ev Chat.step_start; progress "!"]
|}.

(** The same turns from an asynchronous generator, as an asynchronous
    agent would give them. *)
Definition async_sdk : Session.SDK := {|
  Session.create_session := fun _ session_name => session_name;
  Session.create_turn := fun _ _ prompt =>
    Session.async_generator [progress prompt; ev Chat.step_start; progress "!"]
|}.

(** A text that is an integer of 4301 digits. *)
Definition long_integer_text : string :=
  String.concat EmptyString (repeat "7" 4301).

(** A text of [n] characters of three bytes each. *)
Definition cjk_text (n : nat) : string :=
  String.concat EmptyString (repeat "日" n).

End Reference.

(** * Properties *)

(** ** Computations *)

Section Computations.
Context {A B : Type}.

Lemma bind_return (t : list effect) (a : A) (f : A -> py B) :
  (t, Return a) ≫= f = (t ++ trace (f a), result (f a)).
Proof. unfold mbind, py_bind. destruct (f a); reflexivity. Qed.

Lemma ret_bind (a : A) (f : A -> py B) : mret a ≫= f = f a.
Proof. unfold mret, py_ret, mbind, py_bind. destruct (f a); reflexivity. Qed.

Lemma bind_raise (t : list effect) (e : exn) (f : A -> py B) :
  (t, Raise e) ≫= f = (t, Raise e).
Proof. reflexivity. Qed.

(** What a bind has output: the output of its first part, and then, when
    that part returned, the output of what follows. *)
Lemma trace_bind (m : py A) (f : A -> py B) :
  trace (m ≫= f) = trace m \/
  exists a, result m = Return a /\ trace (m ≫= f) = trace m ++ trace (f a).
Proof.
  destruct m as [t [a | e]].
  - right. exists a. rewrite bind_return. auto.
  - left. reflexivity.
Qed.

End Computations.

Lemma yield_bind {B} (s : string) (f : unit -> py B) :
  yield s ≫= f = (Yield s :: trace (f tt), result (f tt)).
Proof. unfold yield. rewrite bind_return. reflexivity. Qed.

Lemma print_bind {B} (s : string) (f : unit -> py B) :
  print s ≫= f = (Print s :: trace (f tt), result (f tt)).
Proof. unfold print. rewrite bind_return. reflexivity. Qed.

Lemma fragments_app (t1 t2 : list effect) :
  fragments (t1 ++ t2) = fragments t1 ++ fragments t2.
Proof.
  induction t1 as [| [s | s] t1 IH]; simpl; [reflexivity | f_equal; exact IH | exact IH].
Qed.

Lemma for_each_returns {A} (body : A -> py unit) (xs : list A) :
  (forall x, result (body x) = Return tt) ->
  for_each xs body = (flat_map (fun x => trace (body x)) xs, Return tt).
Proof.
  intros Hbody. induction xs as [| x xs IH]; [reflexivity |].
  simpl. specialize (Hbody x). destruct (body x) as [t r]. simpl in Hbody. subst r.
  rewrite bind_return, IH. reflexivity.
Qed.

(** A loop over [enumerate(xs, start)] whose body yields one fragment at
    most, and none past index [k], yields no more than the indices from
    [start] to [k]. *)
Lemma for_each_enumerate_bound {A} (body : nat * A -> py unit) (k : nat) :
  (forall i x, (length (fragments (trace (body (i, x)))) <= if (i <=? k)%nat then 1 else 0)%nat) ->
  forall xs start,
    (length (fragments (trace (for_each (enumerate xs start) body))) <= S k - start)%nat.
Proof.
  intros Hbody xs. induction xs as [| x xs IH]; intros start; simpl; [lia |].
  specialize (Hbody start x). specialize (IH (S start)).
  destruct (trace_bind (body (start, x)) (fun _ => for_each (enumerate xs (S start)) body))
    as [E | (a & _ & E)]; rewrite E; clear E.
  - destruct (Nat.leb_spec start k); lia.
  - rewrite fragments_app, length_app. destruct (Nat.leb_spec start k); lia.
Qed.

Section ChatFacts.
Context `{Chat.Runtime}.
Import Chat.

(** ** Regular mode *)

Lemma regular_event_returns (response : response) :
  result (regular_event response) = Return tt.
Proof.
  unfold regular_event. destruct (event_payload response) as [p |]; [| reflexivity].
  destruct p as [| | [text | |] | [| calls rs | |] | |]; try reflexivity.
  destruct calls; reflexivity.
Qed.

Lemma regular_response_trace (turn_response : list response) :
  _handle_regular_response turn_response =
    (flat_map (fun r => trace (regular_event r)) turn_response, Return tt).
Proof. apply for_each_returns, regular_event_returns. Qed.

(** C6. In Regular mode a sequence of [StepProgress] events that carry text
    deltas is answered by exactly these deltas, as they are and in the
    order of arrival; the fragments put together are the deltas put
    together. *)
Theorem regular_progress_verbatim (deltas : list string) :
  let turn_response :=
    map (fun text => {| event_payload := Some (step_progress (TextDelta text)) |}) deltas in
  fragments (trace (_handle_regular_response turn_response)) = deltas /\
  result (_handle_regular_response turn_response) = Return tt /\
  String.concat "" (fragments (trace (_handle_regular_response turn_response)))
    = String.concat "" deltas.
Proof.
  intros turn_response.
  assert (E : fragments (trace (_handle_regular_response turn_response)) = deltas).
  { subst turn_response. rewrite regular_response_trace. simpl.
    induction deltas as [| d ds IH]; simpl; [reflexivity | f_equal; exact IH]. }
  rewrite E. repeat split. rewrite regular_response_trace. reflexivity.
Qed.

(** ** The tool-results summary *)

Lemma for_each_bound {A} (body : A -> py unit) (xs : list A) :
  (forall x, (length (fragments (trace (body x))) <= 1)%nat) ->
  (length (fragments (trace (for_each xs body))) <= length xs)%nat.
Proof.
  intros Hbody. induction xs as [| x xs IH]; simpl; [lia |].
  specialize (Hbody x).
  destruct (trace_bind (body x) (fun _ => for_each xs body)) as [E | (a & _ & E)];
    rewrite E; [lia |].
  rewrite fragments_app, length_app. lia.
Qed.

Lemma enumerate_length {A} (xs : list A) (start : nat) :
  length (enumerate xs start) = length xs.
Proof. revert start. induction xs as [| x xs IH]; intros start; simpl; [| rewrite IH]; reflexivity. Qed.

(** Applies the bound of an enumerating loop to the loop of the goal. *)
Ltac enumerate_bound tac :=
  match goal with
  | |- context [for_each (enumerate ?xs ?start) ?body] =>
      let Hb := fresh "Hb" in
      assert (Hb : forall i x,
        (length (fragments (trace (body (i, x)))) <= if (i <=? 3)%nat then 1 else 0)%nat)
        by (intros i x; cbv beta iota; destruct (i <=? 3)%nat; [tac x | simpl; lia]);
      pose proof (for_each_enumerate_bound body 3 Hb xs start) as Hb';
      simpl in Hb'; exact Hb'
  end.

Lemma web_search_bound (parsed_content : json) :
  (length (fragments (trace (_format_web_search_results parsed_content))) <= 3)%nat.
Proof.
  unfold _format_web_search_results.
  destruct parsed_content as [| | | | | | d]; try (simpl; lia).
  unfold subscript. destruct (dict_lookup "top_k" d) as [top_k |]; [| simpl; lia].
  rewrite ret_bind.
  destruct top_k; try (simpl; lia); unfold iterate; rewrite ret_bind;
    enumerate_bound ltac:(fun x =>
      destruct x as [| | | | | | o]; try (simpl; lia);
      unfold get; rewrite !ret_bind;
      destruct (dict_get o "content" (JString "")); simpl; lia).
Qed.

Lemma results_list_bound (results : list json) :
  (length (fragments (trace (_format_results_list results))) <= 3)%nat.
Proof.
  unfold _format_results_list.
  enumerate_bound ltac:(fun x => destruct x; simpl; lia).
Qed.

Lemma list_results_fragments (parsed_content : list json) :
  exists entries,
    fragments (trace (_format_list_results parsed_content)) = nl :: entries /\
    (length entries <= 3)%nat.
Proof.
  unfold _format_list_results. eexists.
  rewrite yield_bind. simpl. split; [reflexivity |].
  etransitivity.
  - apply for_each_bound. intros [i item].
    destruct item as [| | | | s | | d]; try (simpl; lia).
    destruct (dict_lookup "text" d); [simpl; lia |].
    destruct d as [| [k first_value] d]; [simpl; lia |].
    destruct (short_str first_value); simpl; lia.
  - rewrite enumerate_length, length_take. lia.
Qed.

Lemma dict_results_fragments (parsed_content : list (string * json)) :
  _format_dict_results parsed_content =
    (Yield (nl +:+ "```" +:+ nl)
       :: map (fun entry => Yield (spec_dict_line entry)) (take 5 parsed_content)
       ++ [Yield ("```" +:+ nl)],
     Return tt).
Proof.
  unfold _format_dict_results. rewrite yield_bind.
  rewrite for_each_returns.
  2: { intros [key value]. destruct (short_str value); reflexivity. }
  rewrite bind_return. simpl. do 2 f_equal. f_equal.
  induction (take 5 parsed_content) as [| [key value] l IH]; [reflexivity |].
  simpl. rewrite IH. f_equal.
  destruct value as [| | | | s | |]; simpl; try reflexivity.
  destruct (len s <? 100)%nat; reflexivity.
Qed.

Lemma fragments_yields (l : list string) : fragments (map Yield l) = l.
Proof. induction l as [| x l IH]; simpl; [| rewrite IH]; reflexivity. Qed.

(** C8. Whatever the parsed value holds, the formatters of list-shaped
    results (web search, a results list, a plain list) yield three entries
    at most, and the formatter of a dict-shaped result yields, between its
    two fence lines, one line for each of the first five keys and no
    more. *)
Theorem formatters_are_bounded
    (parsed_content : json) (results : list json) (d : list (string * json)) :
  (length (fragments (trace (_format_web_search_results parsed_content))) <= 3)%nat /\
  (length (fragments (trace (_format_results_list results))) <= 3)%nat /\
  (exists entries,
     fragments (trace (_format_list_results results)) = nl :: entries /\
     (length entries <= 3)%nat) /\
  (exists lines,
     fragments (trace (_format_dict_results d))
       = (nl +:+ "```" +:+ nl) :: lines ++ ["```" +:+ nl] /\
     length lines = length (take 5 d) /\
     (length lines <= 5)%nat).
Proof.
  split; [apply web_search_bound |].
  split; [apply results_list_bound |].
  split; [apply list_results_fragments |].
  exists (map spec_dict_line (take 5 d)).
  rewrite dict_results_fragments. simpl. rewrite fragments_app, <- map_map, fragments_yields.
  rewrite length_map, length_take. repeat split. lia.
Qed.

(** C9. The formatter of a dict-shaped result yields, between its fence
    lines, for each of the first five key/value pairs in order the line of
    the specification's rule: the key and the value itself for a string
    under 100 characters, the key and [[Complex data]] for a string of 100
    characters or more and for a value that is no string.  The characters
    are those [len] counts, whatever the number of bytes that encode
    them. *)
Theorem dict_results_follow_rule (d : list (string * json)) :
  fragments (trace (_format_dict_results d))
    = (nl +:+ "```" +:+ nl) :: map spec_dict_line (take 5 d) ++ ["```" +:+ nl] /\
  result (_format_dict_results d) = Return tt.
Proof.
  rewrite dict_results_fragments. simpl.
  rewrite fragments_app, <- map_map, fragments_yields. split; reflexivity.
Qed.

(** ** ReAct mode *)

Lemma inference_step_returns (current_step_content : string)
    (tool_results : list (string * string)) (final_answer : json) :
  exists t final_answer',
    _process_inference_step current_step_content tool_results final_answer
      = (t, Return final_answer').
Proof.
  unfold _process_inference_step, loads.
  destruct (json_loads current_step_content) as [v |];
    [| destruct (json_loads_error current_step_content); simpl; eauto].
  rewrite ret_bind.
  destruct v as [| | | | | | o]; try solve [simpl; eauto].
  unfold get. rewrite !ret_bind.
  destruct (is_answer (dict_get o "answer" py_None)); simpl; eauto.
Qed.

Lemma tool_execution_returns (step_details : step_details)
    (tool_results : list (string * string)) :
  exists t tool_results',
    _process_tool_execution step_details tool_results = (t, Return tool_results').
Proof.
  unfold _process_tool_execution.
  match goal with |- context [let '(_, _) := ?p in _] => destruct p as [[t [[] | e]] trs] end;
    simpl; eauto.
Qed.

Lemma react_event_malformed (st : react_state) (response : response) :
  event_payload response = None ->
  react_event st response = ([Yield (malformed_msg response)], Return Stop).
Proof. intros E. unfold react_event. rewrite E. reflexivity. Qed.

Lemma react_event_inference (st : react_state) :
  react_event st {| event_payload := Some (step_complete inference) |} =
    (trace (_process_inference_step (current_step_content st) (tool_results st)
              (final_answer st)),
     Return (Next {| current_step_content := "";
                     final_answer := final_answer st;
                     tool_results := tool_results st |})).
Proof.
  unfold react_event. simpl.
  destruct (inference_step_returns (current_step_content st) (tool_results st)
              (final_answer st)) as (t & fa & E).
  rewrite E, bind_return. simpl. rewrite app_nil_r. reflexivity.
Qed.

(** An event that has a payload never ends the loop, and the loop body
    never raises. *)
Lemma react_event_next (st : react_state) (response : response) :
  event_payload response <> None ->
  exists t st', react_event st response = (t, Return (Next st')) /\
                final_answer st' = final_answer st.
Proof.
  intros Hp. destruct response as [[p |]]; [clear Hp | simpl in Hp; congruence].
  destruct p as [| | [text | |] | [| calls rs | |] | |];
    try (unfold react_event; simpl; eauto; fail).
  - rewrite react_event_inference. eauto.
  - unfold react_event. simpl event_payload. cbv iota beta.
    destruct (tool_execution_returns (tool_execution calls rs) (tool_results st))
      as (t & trs & E).
    rewrite E, bind_return. simpl. eauto.
Qed.

(** The loop over events that all have a payload runs to its end, and the
    local [final_answer] is at the end what it was at the start. *)
Lemma react_for_next (turn_response : list response) (st : react_state) :
  Forall (fun r => event_payload r <> None) turn_response ->
  exists t st', react_for turn_response st = (t, Return (Next st')) /\
                final_answer st' = final_answer st.
Proof.
  intros Hall. revert st. induction Hall as [| r rs Hr _ IH]; intros st.
  - simpl. eauto.
  - destruct (react_event_next st r Hr) as (t1 & st1 & E1 & F1).
    destruct (IH st1) as (t2 & st2 & E2 & F2).
    simpl. rewrite E1, bind_return, E2. simpl.
    eexists _, _. split; [reflexivity | congruence].
Qed.

Lemma react_for_app (before rest : list response) (st st' : react_state)
    (t : list effect) :
  react_for before st = (t, Return (Next st')) ->
  react_for (before ++ rest) st
    = (t ++ trace (react_for rest st'), result (react_for rest st')).
Proof.
  revert st t. induction before as [| r rs IH]; intros st t E;
    cbn [react_for app] in *.
  - unfold mret, py_ret in E. inversion E; subst.
    destruct (react_for rest st'); reflexivity.
  - destruct (react_event st r) as [t1 [[st1 |] | e]].
    + rewrite bind_return in E. rewrite bind_return.
      destruct (react_for rs st1) as [t2 r2] eqn:E2. simpl in E.
      inversion E; subst.
      rewrite (IH st1 t2 E2). simpl. rewrite app_assoc. reflexivity.
    + rewrite bind_return in E. simpl in E. inversion E.
    + rewrite bind_raise in E. inversion E.
Qed.

(** C2. An event without payload.  In ReAct mode the loop body yields one
    diagnostic fragment, the server-error text that says the [payload]
    attribute is missing and ends with the response, and returns, whatever
    the state; so a turn whose events before it all have a payload yields
    what these events gave, then the diagnostic fragment, and nothing for
    the events after it, not even the summary.  In Regular mode the turn
    yields what the events before it gave, a fragment naming the event,
    and then what the events after it give. *)
Theorem malformed_event_handling
    (before after : list response) (response : response) :
  let diagnostic :=
    nl +:+ nl +:+ "🚨 :red[_Llama Stack server Error:_]" +:+ nl
       +:+ "The response received is missing an expected `payload` attribute." +:+ nl
       +:+ "This could indicate a malformed response or an internal issue within the server."
       +:+ nl +:+ nl +:+ "Error details: " +:+ response_str response in
  event_payload response = None ->
  (forall st, react_event st response = ([Yield diagnostic], Return Stop)) /\
  (Forall (fun r => event_payload r <> None) before ->
   exists t st,
     react_for before react_init = (t, Return (Next st)) /\
     _handle_react_response (before ++ response :: after)
       = (t ++ [Yield diagnostic], Return tt)) /\
  _handle_regular_response (before ++ response :: after) =
    (trace (_handle_regular_response before)
       ++ [Yield ("Error occurred in the Llama Stack Cluster: " +:+ response_str response)]
       ++ trace (_handle_regular_response after),
     Return tt).
Proof.
  intros diagnostic Hmal. subst diagnostic. split; [| split].
  - intros st. apply react_event_malformed, Hmal.
  - intros Hall.
    destruct (react_for_next before react_init Hall) as (t & st & E & _).
    exists t, st. split; [exact E |].
    unfold _handle_react_response.
    rewrite (react_for_app _ (response :: after) _ _ _ E). simpl react_for.
    rewrite (react_event_malformed st response Hmal), bind_return. simpl.
    rewrite app_nil_r. reflexivity.
  - rewrite !regular_response_trace, flat_map_app. simpl.
    unfold regular_event at 2. rewrite Hmal. reflexivity.
Qed.

Lemma is_answer_string (answer : string) :
  answer <> "" -> answer <> "null" -> is_answer (JString answer) = true.
Proof.
  intros Hne Hnull. unfold is_answer. simpl.
  destruct (String.eqb_spec answer "null") as [-> | _]; [congruence |].
  destruct answer; [congruence | reflexivity].
Qed.

(** C3, as the code has it.  In ReAct mode a [StepComplete]/[Inference]
    event whose buffered text parses to an object with an [answer] that is
    a string other than the word null yields exactly one fragment, the
    final-answer fragment with that string, when the string is not empty,
    and no fragment when it is empty; the loop goes on with the buffer
    reset. *)
Theorem string_answer_is_emitted_unless_empty
    (st : react_state) (o : list (string * json)) (answer : string) :
  json_loads (current_step_content st) = Some (JObject o) ->
  dict_lookup "answer" o = Some (JString answer) ->
  answer <> "null" ->
  react_event st {| event_payload := Some (step_complete inference) |} =
    (match answer with
     | EmptyString => []
     | String _ _ => [Yield (nl +:+ nl +:+ "✅ **Final Answer:**" +:+ nl +:+ answer)]
     end,
     Return (Next {| current_step_content := "";
                     final_answer := final_answer st;
                     tool_results := tool_results st |})).
Proof.
  intros Hparse Hanswer Hnull.
  rewrite react_event_inference. f_equal.
  unfold _process_inference_step, loads. rewrite Hparse, ret_bind.
  unfold get. rewrite !ret_bind.
  assert (E : dict_get o "answer" py_None = JString answer)
    by (unfold dict_get; rewrite Hanswer; reflexivity).
  rewrite !E. destruct answer as [| c answer]; [reflexivity |].
  rewrite (is_answer_string (String c answer)); [reflexivity | discriminate | exact Hnull].
Qed.

(** C10. In ReAct mode, at a [StepComplete]/[Inference] event: when the
    buffered text is no JSON, so that [json.loads] raises
    [JSONDecodeError], exactly one fragment is yielded, the parse
    diagnostic around the raw text; on any other error, which is an error
    of another class from [json.loads] or the failure to read the fields
    of a parsed value that is no object, exactly one fragment is yielded,
    the diagnostic with the message of the error and the raw text; and
    [_process_inference_step] returns in every case, it never raises. *)
Theorem inference_step_degrades (st : react_state) :
  let text := current_step_content st in
  let event := {| event_payload := Some (step_complete inference) |} in
  let next := Return (Next {| current_step_content := "";
                              final_answer := final_answer st;
                              tool_results := tool_results st |}) in
  (json_loads text = None -> json_loads_error text = invalid_json ->
   react_event st event =
     ([Yield (nl +:+ nl +:+ "Failed to parse ReAct step content:" +:+ nl +:+ "```json" +:+ nl
                 +:+ text +:+ nl +:+ "```")], next)) /\
  (json_loads text = None -> json_loads_error text <> invalid_json ->
   react_event st event =
     ([Yield (nl +:+ nl +:+ "Failed to process ReAct step: "
                 +:+ exn_str (loads_exn text (json_loads_error text)) +:+ nl
                 +:+ "```json" +:+ nl +:+ text +:+ nl +:+ "```")], next)) /\
  (forall v, json_loads text = Some v -> isinstance_dict v = false ->
   react_event st event =
     ([Yield (nl +:+ nl +:+ "Failed to process ReAct step: "
                 +:+ exn_str (no_attribute v "get") +:+ nl +:+ "```json" +:+ nl
                 +:+ text +:+ nl +:+ "```")], next)) /\
  (forall tool_results final_answer, exists t final_answer',
     _process_inference_step text tool_results final_answer = (t, Return final_answer')).
Proof.
  intros text event next. subst text event next. split; [| split; [| split]].
  - intros Hparse Hwhy. rewrite react_event_inference. f_equal.
    unfold _process_inference_step, loads. rewrite Hparse, Hwhy. reflexivity.
  - intros Hparse Hwhy. rewrite react_event_inference. f_equal.
    unfold _process_inference_step, loads. rewrite Hparse.
    destruct (json_loads_error (current_step_content st)); [congruence | reflexivity ..].
  - intros v Hparse Hdict. rewrite react_event_inference. f_equal.
    unfold _process_inference_step, loads. rewrite Hparse, ret_bind.
    destruct v; try discriminate Hdict; reflexivity.
  - intros. apply inference_step_returns.
Qed.

(** The loop of [_process_tool_execution] records every response of a step
    whose contents are all JSON. *)
Lemma record_tool_responses_json (tool_responses : list tool_response)
    (tool_results : list (string * string)) :
  Forall (fun r => json_loads (content r) <> None) tool_responses ->
  result (fst (record_tool_responses tool_responses tool_results)) = Return tt /\
  snd (record_tool_responses tool_responses tool_results)
    = tool_results ++ map (fun r => (tool_name r, content r)) tool_responses.
Proof.
  intros Hall. revert tool_results.
  induction Hall as [| r rs Hr _ IH]; intros tool_results.
  - simpl. rewrite app_nil_r. auto.
  - cbn [record_tool_responses]. rewrite print_bind.
    unfold show_content, loads.
    destruct (json_loads (content r)) as [v |]; [| congruence].
    rewrite ret_bind. simpl.
    specialize (IH (tool_results ++ [(tool_name r, content r)])).
    destruct (record_tool_responses rs (tool_results ++ [(tool_name r, content r)]))
      as [[t' r'] trs]. simpl in *.
    destruct IH as [-> ->]. rewrite <- app_assoc. auto.
Qed.

End ChatFacts.

(** ** The user routes *)

Section UsersFacts.
Context `{Users.Backend}.
Import Users.


End UsersFacts.

(** ** The model at concrete inputs *)

Import Reference.

Example loads_object :
  Chat.json_loads (json_text "{'a': [1, -2, true, null, {}], 'b': 'x', 'a': 'y'}")
    = Some (JObject [("a", JString "y"); ("b", JString "x")]).
Proof. reflexivity. Qed.

Example loads_rejects :
  map Chat.json_loads ["oops"; "[1,]"; "01"; "{"; EmptyString] = [None; None; None; None; None].
Proof. reflexivity. Qed.

Example web_search_three_of_four :
  fragments (trace (Chat._format_tool_results_summary
    [("web_search",
      json_text "{'top_k': [{'title': 'T1', 'url': 'u1', 'content': ' c1 '}, {}, {'url': 'u3'}, {'title': 'T4'}]}")]))
  = [Chat.summary_header;
     nl +:+ "- **T1**" +:+ nl +:+ "  c1" +:+ nl +:+ "  [Source](u1)" +:+ nl;
     nl +:+ "- **Untitled**" +:+ nl +:+ "  " +:+ nl +:+ "  [Source]()" +:+ nl;
     nl +:+ "- **Untitled**" +:+ nl +:+ "  " +:+ nl +:+ "  [Source](u3)" +:+ nl].
Proof. vm_compute. reflexivity. Qed.

Example results_list_fallbacks :
  fragments (trace (Chat._format_tool_results_summary
    [("search", json_text "{'results': [{'name': 'n1', 'summary': 's1'}, {'content': 'c2'}, 7, 8]}")]))
  = [Chat.summary_header;
     nl +:+ "- **n1**" +:+ nl +:+ "  s1" +:+ nl;
     nl +:+ "- **Result 2**" +:+ nl +:+ "  c2" +:+ nl;
     nl +:+ "- 7" +:+ nl].
Proof. vm_compute. reflexivity. Qed.

Example plain_list_entries :
  fragments (trace (Chat._format_tool_results_summary
    [("t", json_text "['one', {'text': 'two'}, {'k': 3}, 'four']")]))
  = [Chat.summary_header; nl; "- one" +:+ nl; "- two" +:+ nl].
Proof. vm_compute. reflexivity. Qed.

(** The threshold of the dict formatter counts characters, not bytes: a
    value of 40 characters of three bytes each is shown as it is, and so
    is one of 99; one of 100 is not. *)
Example len_counts_characters :
  len (cjk_text 40) = 40%nat /\ String.length (cjk_text 40) = 120%nat /\
  chars "日本語" = ["日"; "本"; "語"] /\ len "naïve" = 5%nat.
Proof. vm_compute. repeat split. Qed.

Example dict_lines_of_wide_characters :
  fragments (trace (Chat._format_dict_results
    [("a", JString (cjk_text 40)); ("b", JString (cjk_text 99));
     ("c", JString (cjk_text 100)); ("d", JInt 7)]))
  = [nl +:+ "```" +:+ nl;
     "a: " +:+ cjk_text 40 +:+ nl;
     "b: " +:+ cjk_text 99 +:+ nl;
     "c: [Complex data]" +:+ nl;
     "d: [Complex data]" +:+ nl;
     "```" +:+ nl].
Proof. vm_compute. reflexivity. Qed.

(** C1, at the input where the code departs from it.  A tool result is
    recorded, then an inference step gives the answer 42: the final-answer
    fragment is yielded and, at the end of the turn, the tool-results
    summary as well. *)
Theorem final_answer_does_not_suppress_summary :
  fragments (trace (Chat._handle_react_response
    [tool_step [("lookup", status_text)]; progress (answer_text "42"); inference_step]))
  = [nl +:+ nl +:+ "✅ **Final Answer:**" +:+ nl +:+ "42";
     nl +:+ nl +:+ "**Here's what I found:**" +:+ nl;
     nl +:+ "```" +:+ nl;
     "status: ok" +:+ nl;
     "```" +:+ nl].
Proof. vm_compute. reflexivity. Qed.

(** C4, at the input where the code departs from it.  A step with two tool
    responses, the first of which has a content that is no JSON: the first
    pair is recorded, the error of the [print] call is logged, and the
    second pair is not recorded. *)
Theorem responses_after_unparsable_content_are_dropped :
  Chat._process_tool_execution
    (Chat.tool_execution []
       [{| Chat.tool_name := "a"; Chat.content := "oops" |};
        {| Chat.tool_name := "b"; Chat.content := "{}" |}]) []
  = ([Print "";
      Print (Chat.tool_error_log (bad_keyword "print" "language"))],
     Return [("a", "oops")]).
Proof. vm_compute. reflexivity. Qed.

(** C3 as stated fails for the empty string: the buffered text with an
    empty [answer] parses to an object whose [answer] is a string, not null
    and not the word null, and the step yields no fragment. *)
Lemma empty_answer_yields_no_fragment :
  let st := {| Chat.current_step_content := answer_text "";
               Chat.final_answer := py_None;
               Chat.tool_results := [] |} in
  Chat.json_loads (Chat.current_step_content st) = Some (JObject [("answer", JString "")]) /\
  fragments (trace (Chat.react_event st inference_step)) = [] /\
  fragments (trace (Chat.react_event st inference_step))
    <> [nl +:+ nl +:+ "✅ **Final Answer:**" +:+ nl +:+ ""].
Proof. vm_compute. repeat split. discriminate. Qed.

(** A malformed event between two text deltas. *)
Lemma malformed_event_handling_witness :
  let before := [progress "x"] in
  let after := [progress "y"] in
  let diagnostic :=
    nl +:+ nl +:+ "🚨 :red[_Llama Stack server Error:_]" +:+ nl
       +:+ "The response received is missing an expected `payload` attribute." +:+ nl
       +:+ "This could indicate a malformed response or an internal issue within the server."
       +:+ nl +:+ nl +:+ "Error details: event()" in
  Chat.event_payload malformed = None /\
  Forall (fun r => Chat.event_payload r <> None) before /\
  Chat._handle_react_response (before ++ malformed :: after)
    = ([Yield diagnostic], Return tt) /\
  fragments (trace (Chat._handle_regular_response (before ++ malformed :: after)))
    = ["x"; "Error occurred in the Llama Stack Cluster: event()"; "y"].
Proof.
  intros before after diagnostic.
  assert (Hmal : Chat.event_payload malformed = None) by reflexivity.
  assert (Hall : Forall (fun r => Chat.event_payload r <> None) before)
    by (repeat constructor; discriminate).
  destruct (malformed_event_handling before after malformed Hmal) as (_ & Hreact & Hregular).
  split; [exact Hmal |]. split; [exact Hall |]. split.
  - destruct (Hreact Hall) as (t & st & E & Hturn). rewrite Hturn.
    vm_compute in E. inversion E. reflexivity.
  - rewrite Hregular. reflexivity.
Defined.

(** The answer 42. *)
Lemma string_answer_is_emitted_unless_empty_witness :
  let st := {| Chat.current_step_content := answer_text "42";
               Chat.final_answer := py_None;
               Chat.tool_results := [("lookup", status_text)] |} in
  fragments (trace (Chat.react_event st inference_step))
    = [nl +:+ nl +:+ "✅ **Final Answer:**" +:+ nl +:+ "42"].
Proof.
  intros st.
  rewrite (string_answer_is_emitted_unless_empty st [("answer", JString "42")] "42");
    [reflexivity | reflexivity | reflexivity | discriminate].
Defined.


(** A buffer that is no JSON, a buffer that is an integer of 4301 digits,
    and a buffer that is a JSON list. *)
Lemma inference_step_degrades_witness :
  let st text := {| Chat.current_step_content := text;
                    Chat.final_answer := py_None;
                    Chat.tool_results := [] |} in
  fragments (trace (Chat.react_event (st "oops") inference_step))
    = [nl +:+ nl +:+ "Failed to parse ReAct step content:" +:+ nl +:+ "```json" +:+ nl
          +:+ "oops" +:+ nl +:+ "```"] /\
  fragments (trace (Chat.react_event (st long_integer_text) inference_step))
    = [nl +:+ nl +:+ "Failed to process ReAct step: "
          +:+ "Exceeds the limit (4300 digits) for integer string conversion: value has 4301 digits; use sys.set_int_max_str_digits() to increase the limit"
          +:+ nl +:+ "```json" +:+ nl +:+ long_integer_text +:+ nl +:+ "```"] /\
  fragments (trace (Chat.react_event (st "[1]") inference_step))
    = [nl +:+ nl +:+ "Failed to process ReAct step: 'list' object has no attribute 'get'"
          +:+ nl +:+ "```json" +:+ nl +:+ "[1]" +:+ nl +:+ "```"].
Proof.
  intros st.
  destruct (inference_step_degrades (st "oops")) as (Hparse & _ & _ & _).
  destruct (inference_step_degrades (st long_integer_text)) as (_ & Hother & _ & _).
  destruct (inference_step_degrades (st "[1]")) as (_ & _ & Hprocess & _).
  split; [| split].
  - unfold inference_step, ev. rewrite Hparse; reflexivity.
  - unfold inference_step, ev.
    rewrite Hother; [| vm_compute; reflexivity | vm_compute; discriminate].
    vm_compute. reflexivity.
  - unfold inference_step, ev. rewrite (Hprocess (JArray [JInt 1])); reflexivity.
Defined.

(** * Further properties of the reformatter *)

Lemma append_empty_r (s : string) : s +:+ EmptyString = s.
Proof.
  induction s as [| c s IH]; [reflexivity |].
  change (String c (s +:+ EmptyString) = String c s). rewrite IH. reflexivity.
Qed.

Lemma append_assoc (s1 s2 s3 : string) : (s1 +:+ s2) +:+ s3 = s1 +:+ s2 +:+ s3.
Proof.
  induction s1 as [| c s1 IH]; [reflexivity |].
  change (String c ((s1 +:+ s2) +:+ s3) = String c (s1 +:+ s2 +:+ s3)).
  rewrite IH. reflexivity.
Qed.

Lemma concat_cons (d : string) (ds : list string) :
  String.concat EmptyString (d :: ds) = d +:+ String.concat EmptyString ds.
Proof. destruct ds; [cbn [String.concat]; rewrite append_empty_r |]; reflexivity. Qed.

Section ChatMore.
Context `{Chat.Runtime}.
Import Chat.

Lemma react_event_returns (st : react_state) (response : response) :
  exists t c, react_event st response = (t, Return c).
Proof.
  destruct (event_payload response) as [p |] eqn:E.
  - destruct (react_event_next st response) as (t & st' & E' & _); [congruence | eauto].
  - rewrite (react_event_malformed st response E). eauto.
Qed.

Lemma react_for_returns (turn_response : list response) (st : react_state) :
  exists t c, react_for turn_response st = (t, Return c).
Proof.
  revert st. induction turn_response as [| r rs IH]; intros st; cbn [react_for].
  - unfold mret, py_ret. eauto.
  - destruct (react_event_returns st r) as (t & c & E). rewrite E, bind_return.
    destruct c as [st' |].
    + destruct (IH st') as (t' & c' & E'). rewrite E'. simpl. eauto.
    + simpl. eauto.
Qed.

Lemma react_for_progress (deltas : list string) (st : react_state) :
  react_for (map progress_event deltas) st =
    ([], Return (Next {| current_step_content :=
                           current_step_content st +:+ String.concat EmptyString deltas;
                         final_answer := final_answer st;
                         tool_results := tool_results st |})).
Proof.
  revert st. induction deltas as [| d ds IH]; intros st.
  - cbn [map react_for String.concat]. rewrite append_empty_r. destruct st; reflexivity.
  - cbn [map react_for]. unfold react_event, progress_event at 1. simpl event_payload.
    cbv iota beta. rewrite ret_bind, IH.
    cbn [current_step_content final_answer tool_results].
    rewrite concat_cons, append_assoc. reflexivity.
Qed.

(** X2. In ReAct mode text deltas are buffered, not shown: a turn of text
    deltas closed by an inference step yields nothing for the deltas, and
    the step reads the deltas put together, in order. *)
Theorem react_buffers_deltas (deltas : list string) :
  _handle_react_response
    (map progress_event deltas ++ [{| event_payload := Some (step_complete inference) |}])
  = (trace (_process_inference_step (String.concat EmptyString deltas) [] py_None),
     Return tt).
Proof.
  unfold _handle_react_response.
  rewrite (react_for_app _ _ _ _ _ (react_for_progress deltas react_init)).
  cbn [react_for]. rewrite react_event_inference, bind_return.
  cbn [trace result fst snd mret py_ret app current_step_content final_answer
       tool_results react_init].
  rewrite bind_return.
  cbn [trace result fst snd wants_summary current_step_content final_answer
       tool_results truthy negb andb pass mret py_ret].
  rewrite !app_nil_r. reflexivity.
Qed.

(** X3. A completed step of any kind empties the buffer: the deltas that
    came before it are dropped, and after it the buffer holds the deltas
    that came since. *)
Theorem react_step_resets_buffer
    (earlier later : list string) (step : step_details) (st : react_state) :
  exists t st',
    react_for (map progress_event earlier
                 ++ {| event_payload := Some (step_complete step) |}
                 :: map progress_event later) st
      = (t, Return (Next st')) /\
    current_step_content st' = String.concat EmptyString later /\
    final_answer st' = final_answer st.
Proof.
  rewrite (react_for_app _ _ _ _ _ (react_for_progress earlier st)).
  cbn [react_for].
  match goal with |- context [react_event ?s ?r] =>
    destruct (react_event_next s r) as (t1 & st1 & E1 & F1); [discriminate |];
    assert (C1 : current_step_content st1 = EmptyString)
  end.
  { destruct step as [| calls rs | |].
    - rewrite react_event_inference in E1. inversion E1; reflexivity.
    - unfold react_event in E1. simpl event_payload in E1. cbv iota beta in E1.
      destruct (tool_execution_returns (tool_execution calls rs)
                  (tool_results st)) as (t' & trs & E').
      simpl tool_results in E1. rewrite E', bind_return in E1.
      inversion E1; reflexivity.
    - inversion E1; reflexivity.
    - inversion E1; reflexivity. }
  rewrite E1, bind_return, react_for_progress. simpl.
  eexists _, _. split; [reflexivity |]. simpl. rewrite C1. split; [reflexivity | exact F1].
Qed.

(** X5. Each event of a Regular turn yields one fragment at most, and the
    events are handled one by one: the output of two sequences put
    together is the output of the first followed by that of the second. *)
Theorem regular_is_compositional (first second : list response) :
  _handle_regular_response (first ++ second)
    = (trace (_handle_regular_response first) ++ trace (_handle_regular_response second),
       Return tt) /\
  (length (fragments (trace (_handle_regular_response first))) <= length first)%nat.
Proof.
  split.
  - rewrite !regular_response_trace, flat_map_app. reflexivity.
  - rewrite regular_response_trace. simpl.
    induction first as [| r rs IH]; simpl; [lia |].
    rewrite fragments_app, length_app.
    assert (length (fragments (trace (regular_event r))) <= 1)%nat; [| lia].
    unfold regular_event. destruct (event_payload r) as [p |]; [| simpl; lia].
    destruct p as [| | [text | |] | [| calls rs' | |] | |]; try (simpl; lia).
    destruct calls; simpl; lia.
Qed.

(** X6. An inference step yields one fragment at most, whatever the buffer
    holds and whatever the state is. *)
Theorem inference_step_at_most_one_fragment (current_step_content : string)
    (tool_results : list (string * string)) (final_answer : json) :
  (length (fragments (trace
     (_process_inference_step current_step_content tool_results final_answer))) <= 1)%nat.
Proof.
  unfold _process_inference_step, loads.
  destruct (json_loads current_step_content) as [v |];
    [| destruct (json_loads_error current_step_content); simpl; lia].
  rewrite ret_bind.
  destruct v as [| | | | | | o]; try (simpl; lia).
  unfold get. rewrite !ret_bind.
  destruct (is_answer (dict_get o "answer" py_None)); simpl; lia.
Qed.

End ChatMore.

Section ToolResults.
Context `{Chat.Runtime}.
Import Chat.




End ToolResults.

Section SummaryMore.
Context `{Chat.Runtime}.
Import Chat.

Lemma nde_returns {A} (m : py A) (a : A) : result m = Return a -> no_decode_error m.
Proof. intros E e E'. congruence. Qed.

Lemma nde_bind {A B} (m : py A) (f : A -> py B) :
  no_decode_error m -> (forall a, no_decode_error (f a)) -> no_decode_error (m ≫= f).
Proof.
  intros Hm Hf. destruct m as [t [a | e]].
  - rewrite bind_return. exact (Hf a).
  - rewrite bind_raise. intros e' E. inversion E; subst. exact (Hm e' eq_refl).
Qed.

Lemma nde_for_each {A} (body : A -> py unit) (xs : list A) :
  (forall x, no_decode_error (body x)) -> no_decode_error (for_each xs body).
Proof.
  intros Hbody. induction xs as [| x xs IH]; cbn [for_each].
  - intros e E. discriminate E.
  - apply nde_bind; [apply Hbody | intros _; exact IH].
Qed.

Ltac nde_primitive v :=
  destruct v; intros e E; simpl in E; inversion E; subst; reflexivity.

Lemma nde_py_in (k : string) (v : json) : no_decode_error (py_in k v).
Proof. nde_primitive v. Qed.

Lemma nde_iterate (v : json) : no_decode_error (iterate v).
Proof. nde_primitive v. Qed.

Lemma nde_get (v : json) (k : string) (default : json) : no_decode_error (get v k default).
Proof. nde_primitive v. Qed.

Lemma nde_strip (v : json) : no_decode_error (strip v).
Proof. nde_primitive v. Qed.

Lemma nde_subscript (v : json) (k : string) : no_decode_error (subscript v k).
Proof.
  destruct v as [| | | | | | d]; try (intros e E; simpl in E; inversion E; subst; reflexivity).
  unfold subscript. destruct (dict_lookup k d); intros e E; simpl in E; inversion E; subst;
    reflexivity.
Qed.

Lemma nde_web_search (parsed_content : json) :
  no_decode_error (_format_web_search_results parsed_content).
Proof.
  unfold _format_web_search_results.
  apply nde_bind; [apply nde_subscript | intros top_k].
  apply nde_bind; [apply nde_iterate | intros results].
  apply nde_for_each. intros [i result].
  destruct (i <=? 3)%nat; [| intros e E; discriminate E].
  apply nde_bind; [apply nde_get | intros title].
  apply nde_bind; [apply nde_get | intros url].
  apply nde_bind; [apply nde_get | intros content].
  apply nde_bind; [apply nde_strip | intros content_text].
  intros e E. discriminate E.
Qed.

Lemma results_list_returns_each (i : nat) (result : json) :
  exists t,
    (if (i <=? 3)%nat then
       match result with
       | JObject d =>
           let name :=
             dict_get d "name" (dict_get d "title" (JString ("Result " +:+ str_of_nat i))) in
           let description :=
             dict_get d "description"
               (dict_get d "content" (dict_get d "summary" (JString ""))) in
           yield (nl +:+ "- **" +:+ fmt name +:+ "**" +:+ nl +:+ "  " +:+ fmt description +:+ nl)
       | _ => yield (nl +:+ "- " +:+ fmt result +:+ nl)
       end
     else pass) = (t, Return tt) /\
    length (fragments t) = if (i <=? 3)%nat then 1%nat else 0%nat.
Proof.
  destruct (i <=? 3)%nat; [destruct result |]; eexists; split; reflexivity.
Qed.

(** A loop over [enumerate(xs, start)] whose body returns, with one
    fragment up to index [k] and none past it, yields as many fragments as
    there are indices up to [k]. *)
Lemma for_each_enumerate_exact {A} (body : nat * A -> py unit) (k : nat) :
  (forall i x, exists t, body (i, x) = (t, Return tt) /\
                         length (fragments t) = if (i <=? k)%nat then 1%nat else 0%nat) ->
  forall xs start,
    result (for_each (enumerate xs start) body) = Return tt /\
    length (fragments (trace (for_each (enumerate xs start) body)))
      = Nat.min (length xs) (S k - start).
Proof.
  intros Hbody xs. induction xs as [| x xs IH]; intros start; cbn [enumerate for_each].
  - split; reflexivity.
  - destruct (Hbody start x) as (t & E & Hlen). rewrite E, bind_return.
    destruct (IH (S start)) as [Hr Hl]. split; [exact Hr |].
    cbn [trace fst]. rewrite fragments_app, length_app, Hlen, Hl.
    cbn [length]. destruct (Nat.leb_spec start k); lia.
Qed.

(** X10. The formatter of a results list never raises and yields one
    entry for each of the first three results: as many fragments as the
    list is long, and three when it is longer. *)
Theorem results_list_count (results : list json) :
  result (_format_results_list results) = Return tt /\
  length (fragments (trace (_format_results_list results))) = Nat.min (length results) 3.
Proof.
  unfold _format_results_list.
  match goal with |- context [for_each (enumerate ?xs ?start) ?body] =>
    pose proof (for_each_enumerate_exact body 3) as Hb
  end.
  apply (Hb ltac:(intros i x; apply results_list_returns_each) results 1%nat).
Qed.

Lemma try_summary_fragments (body : py unit) (tool_name : string) :
  no_decode_error body ->
  fragments (trace (try_except body (summary_handler tool_name))) = fragments (trace body).
Proof.
  intros Hq. destruct body as [t [a | e]]; [reflexivity |].
  specialize (Hq e eq_refl). unfold formatting_error in Hq.
  unfold try_except, summary_handler.
  destruct (class_of e); try discriminate Hq; simpl; rewrite fragments_app; simpl;
    apply app_nil_r.
Qed.

Lemma bind_bound {A B} (m : py A) (f : A -> py B) (n : nat) :
  trace m = [] ->
  (forall a, (length (fragments (trace (f a))) <= n)%nat) ->
  (length (fragments (trace (m ≫= f))) <= n)%nat.
Proof.
  intros Hm Hf. destruct (trace_bind m f) as [E | (a & _ & E)]; rewrite E, Hm.
  - simpl. lia.
  - apply Hf.
Qed.

Lemma py_in_silent (k : string) (v : json) : trace (py_in k v) = [].
Proof. destruct v; reflexivity. Qed.

Lemma is_web_search_silent (tool_name : string) (v : json) :
  trace (is_web_search tool_name v) = [] /\ no_decode_error (is_web_search tool_name v).
Proof.
  unfold is_web_search. destruct (String.eqb tool_name "web_search").
  - split; [apply py_in_silent | apply nde_py_in].
  - split; [reflexivity | intros e E; discriminate E].
Qed.

Lemma results_list_silent (v : json) :
  trace (results_list v) = [] /\ no_decode_error (results_list v).
Proof.
  unfold results_list. split.
  - destruct v as [| | | | s | l | d]; try reflexivity; simpl py_in; rewrite ret_bind.
    + destruct (is_infix "results" s); reflexivity.
    + destruct (existsb _ l); reflexivity.
    + unfold subscript. destruct (dict_lookup "results" d); reflexivity.
  - apply nde_bind; [apply nde_py_in | intros [|]].
    + apply nde_bind; [apply nde_subscript | intros r; intros e E; discriminate E].
    + intros e E; discriminate E.
Qed.

(** What one parsed tool result gives: seven fragments at most (a dict
    between its fences), and no [JSONDecodeError]. *)
Lemma format_parsed_bound (tool_name content : string) (v : json) :
  json_loads content = Some v ->
  (length (fragments (trace (format_tool_result tool_name content))) <= 7)%nat /\
  no_decode_error (format_tool_result tool_name content).
Proof.
  intros Hv. unfold format_tool_result, loads. rewrite Hv, ret_bind.
  destruct (is_web_search_silent tool_name v) as [Hw Hwq].
  destruct (results_list_silent v) as [Hr Hrq].
  assert (Hdict : forall d, (length (fragments (trace (_format_dict_results d))) <= 7)%nat).
  { intros d. rewrite dict_results_fragments. cbn [trace fst fragments length].
    rewrite fragments_app, <- map_map, fragments_yields, length_app, length_map, length_take.
    cbn [fragments length]. lia. }
  assert (Hlist : forall l, (length (fragments (trace (_format_list_results l))) <= 7)%nat).
  { intros l. destruct (list_results_fragments l) as (entries & -> & Hlen). simpl. lia. }
  split.
  - apply bind_bound; [exact Hw | intros [|]].
    + pose proof (web_search_bound v). lia.
    + apply bind_bound; [exact Hr | intros [l |]].
      * pose proof (results_list_bound l). lia.
      * destruct v as [| | | | | [| x l] | [| kv d]]; try (simpl; lia);
          [apply Hlist | apply Hdict].
  - apply nde_bind; [exact Hwq | intros [|]]; [apply nde_web_search |].
    apply nde_bind; [exact Hrq | intros [l |]].
    + apply (nde_returns _ tt), results_list_count.
    + destruct v as [| | | | | [| x l] | [| kv d]]; try (intros e E; discriminate E).
      * unfold _format_list_results. rewrite yield_bind.
        rewrite for_each_returns; [intros e E; discriminate E |].
        intros [i item]. destruct item as [| | | | s | | o]; try reflexivity.
        destruct (dict_lookup "text" o); [reflexivity |].
        destruct o as [| [k first_value] o]; [reflexivity |].
        destruct (short_str first_value); reflexivity.
      * rewrite dict_results_fragments. intros e E; discriminate E.
Qed.

Lemma summarise_bound (entry : string * string) :
  (length (fragments (trace (summarise_tool_result entry))) <= 7)%nat.
Proof.
  destruct entry as [tool_name content]. unfold summarise_tool_result.
  destruct (json_loads content) as [v |] eqn:Hv.
  - destruct (format_parsed_bound tool_name content v Hv) as [Hb Hq].
    rewrite (try_summary_fragments _ _ Hq). exact Hb.
  - unfold format_tool_result, loads. rewrite Hv.
    destruct (json_loads_error content); simpl; lia.
Qed.

(** A loop whose body yields [n] fragments at most yields [n] for each
    item at most, also when it is left by an exception. *)
Lemma for_each_bound_by {A} (body : A -> py unit) (n : nat) (xs : list A) :
  (forall x, (length (fragments (trace (body x))) <= n)%nat) ->
  (length (fragments (trace (for_each xs body))) <= n * length xs)%nat.
Proof.
  intros Hbody. induction xs as [| x xs IH]; cbn [for_each length]; [simpl; lia |].
  specialize (Hbody x).
  destruct (trace_bind (body x) (fun _ => for_each xs body)) as [E | (a & _ & E)];
    rewrite E; [lia |].
  rewrite fragments_app, length_app. lia.
Qed.

(** X8. The summary of [n] recorded tool results has no more than
    [1 + 7 * n] fragments: the header, and for each result seven at most,
    whatever its content. *)
Theorem summary_length_bound (tool_results : list (string * string)) :
  (length (fragments (trace (_format_tool_results_summary tool_results)))
     <= 1 + 7 * length tool_results)%nat.
Proof.
  unfold _format_tool_results_summary. rewrite yield_bind.
  cbn [trace fst fragments length].
  pose proof (for_each_bound_by summarise_tool_result 7 tool_results summarise_bound).
  lia.
Qed.

(** X9. A recorded result whose content parses to anything but an object
    or a list that is not empty (a number, a boolean, null, a string, an
    empty object, an empty list) adds no fragment to the summary. *)
Theorem unstructured_content_is_silent (tool_name content : string) (v : json) :
  json_loads content = Some v ->
  structured v = false ->
  fragments (trace (summarise_tool_result (tool_name, content))) = [].
Proof.
  intros Hv Hs. unfold summarise_tool_result, format_tool_result, loads.
  rewrite Hv, ret_bind. unfold is_web_search, results_list.
  destruct (String.eqb tool_name "web_search");
    destruct v as [| | | | s | [| x l] | [| kv d]]; try discriminate Hs; try reflexivity.
  - simpl py_in. rewrite ret_bind.
    destruct (is_infix "top_k" s); [reflexivity |].
    simpl py_in. rewrite ret_bind. destruct (is_infix "results" s); reflexivity.
  - simpl py_in. rewrite ret_bind. destruct (is_infix "results" s); reflexivity.
Qed.

(** ** What leaves the summary loop *)

Lemma try_summary_returns (body : py unit) (tool_name : string) :
  no_decode_error body ->
  result (try_except body (summary_handler tool_name)) = Return tt.
Proof.
  intros Hq. destruct body as [t [[] | e]]; [reflexivity |].
  specialize (Hq e eq_refl). unfold formatting_error in Hq.
  unfold try_except, summary_handler.
  destruct (class_of e); try discriminate Hq; reflexivity.
Qed.

(** A pair whose content [json.loads] reads, or rejects with
    [JSONDecodeError], ends its pass through the loop normally. *)
Lemma summarise_caught (tool_name content : string) :
  loads_caught content ->
  result (summarise_tool_result (tool_name, content)) = Return tt.
Proof.
  intros Hc. unfold summarise_tool_result.
  destruct (json_loads content) as [v |] eqn:Hv.
  - apply try_summary_returns, (format_parsed_bound tool_name content v Hv).
  - unfold format_tool_result, loads. rewrite Hv, (Hc Hv). reflexivity.
Qed.

(** A pair on whose content [json.loads] raises another error leaves the
    loop with that error, having yielded nothing. *)
Lemma summarise_uncaught (tool_name content : string) :
  json_loads content = None ->
  json_loads_error content <> invalid_json ->
  summarise_tool_result (tool_name, content) =
    ([], Raise (loads_exn content (json_loads_error content))).
Proof.
  intros Hv Hne. unfold summarise_tool_result, format_tool_result, loads.
  rewrite Hv. destruct (json_loads_error content); [congruence | reflexivity ..].
Qed.

(** The other direction: a pair that leaves the loop by an exception is
    one on whose content [json.loads] raised an error that is no
    [JSONDecodeError]. *)
Lemma summarise_raises (tool_name content : string) (e : exn) :
  result (summarise_tool_result (tool_name, content)) = Raise e ->
  json_loads content = None /\
  json_loads_error content <> invalid_json /\
  e = loads_exn content (json_loads_error content).
Proof.
  intros E.
  destruct (json_loads content) as [v |] eqn:Hv.
  - rewrite summarise_caught in E by (intros Hn; congruence). discriminate E.
  - destruct (json_loads_error content) eqn:Hw.
    + rewrite summarise_caught in E by (intros _; exact Hw). discriminate E.
    + rewrite summarise_uncaught in E by congruence. rewrite Hw in E.
      inversion E. repeat split; congruence.
    + rewrite summarise_uncaught in E by congruence. rewrite Hw in E.
      inversion E. repeat split; congruence.
Qed.

Lemma for_each_app {A} (body : A -> py unit) (xs ys : list A) :
  Forall (fun x => result (body x) = Return tt) xs ->
  for_each (xs ++ ys) body =
    (flat_map (fun x => trace (body x)) xs ++ trace (for_each ys body),
     result (for_each ys body)).
Proof.
  intros Hxs. induction Hxs as [| x xs Hx _ IH]; cbn [app for_each flat_map].
  - destruct (for_each ys body); reflexivity.
  - destruct (body x) as [t r]. simpl in Hx. subst r.
    rewrite bind_return, IH. cbn [trace result fst snd]. rewrite <- app_assoc. reflexivity.
Qed.

Lemma for_each_raises {A} (body : A -> py unit) (xs : list A) (e : exn) :
  result (for_each xs body) = Raise e ->
  exists x, x ∈ xs /\ result (body x) = Raise e.
Proof.
  induction xs as [| x xs IH]; cbn [for_each]; [discriminate |].
  destruct (body x) as [t [[] | e']] eqn:Ex.
  - rewrite bind_return. cbn [result snd]. intros E.
    destruct (IH E) as (y & Hy & Ey). exists y. split; [apply elem_of_cons; auto | exact Ey].
  - rewrite bind_raise. cbn [result snd]. intros E. inversion E; subst.
    exists x. split; [apply elem_of_cons; auto | rewrite Ex; reflexivity].
Qed.

Lemma caught_pairs_return (entries : list (string * string)) :
  Forall (fun entry => loads_caught (snd entry)) entries ->
  Forall (fun entry => result (summarise_tool_result entry) = Return tt) entries.
Proof.
  intros Hall. eapply Forall_impl; [exact Hall |].
  intros [tool_name content] Hc. apply summarise_caught. exact Hc.
Qed.

(** The summary up to the first pair that may leave the loop. *)
Lemma summary_prefix (before rest : list (string * string)) :
  Forall (fun entry => loads_caught (snd entry)) before ->
  _format_tool_results_summary (before ++ rest) =
    (Yield summary_header
       :: flat_map (fun entry => trace (summarise_tool_result entry)) before
       ++ trace (for_each rest summarise_tool_result),
     result (for_each rest summarise_tool_result)).
Proof.
  intros Hall. unfold _format_tool_results_summary.
  rewrite yield_bind, (for_each_app _ _ _ (caught_pairs_return before Hall)). reflexivity.
Qed.


(** ** The whole ReAct turn *)

(** X1. The loop of [_handle_react_response] never raises: malformed
    events, buffers that are no JSON and tool contents that are no JSON
    all end in a fragment or a logged line.  An exception can leave the
    generator only from the summary after the loop, and then it is the
    error [json.loads] raised on a recorded content, an error that is no
    [JSONDecodeError]; when no recorded content is of that kind the
    generator ends normally. *)
Theorem react_raises_only_from_summary (turn_response : list response) :
  (exists t c, react_for turn_response react_init = (t, Return c)) /\
  (forall e,
     result (_handle_react_response turn_response) = Raise e ->
     exists t st tool_name content,
       react_for turn_response react_init = (t, Return (Next st)) /\
       (tool_name, content) ∈ tool_results st /\
       json_loads content = None /\
       json_loads_error content <> invalid_json /\
       e = loads_exn content (json_loads_error content)) /\
  (forall t st,
     react_for turn_response react_init = (t, Return (Next st)) ->
     Forall (fun entry => loads_caught (snd entry)) (tool_results st) ->
     result (_handle_react_response turn_response) = Return tt).
Proof.
  destruct (react_for_returns turn_response react_init) as (t & c & E).
  split; [eauto |]. split.
  - intros e He. unfold _handle_react_response in He. rewrite E, bind_return in He.
    cbn [result snd] in He.
    destruct c as [st |]; [| discriminate He].
    destruct (wants_summary st); [| discriminate He].
    unfold _format_tool_results_summary in He. rewrite yield_bind in He.
    cbn [result snd] in He.
    destruct (for_each_raises _ _ _ He) as ([tool_name content] & Hin & Hr).
    destruct (summarise_raises tool_name content e Hr) as (Hv & Hne & ->).
    exists t, st, tool_name, content. auto.
  - intros t' st E' Hall. rewrite E in E'. inversion E'; subst.
    unfold _handle_react_response. rewrite E, bind_return. cbn [result snd].
    destruct (wants_summary st); [| reflexivity].
    pose proof (summary_prefix (tool_results st) [] Hall) as Es.
    rewrite app_nil_r in Es. rewrite Es. reflexivity.
Qed.

(** X4. A ReAct turn whose events all have a payload ends its loop with
    [final_answer] still [None], whatever its inference steps found.  When
    no tool result was recorded the turn yields what its events gave and
    ends; when one was, the tool-results summary follows, header first,
    and the turn ends as the summary ends. *)
Theorem react_summary_follows_tool_results (turn_response : list response) :
  Forall (fun r => event_payload r <> None) turn_response ->
  exists t st,
    react_for turn_response react_init = (t, Return (Next st)) /\
    final_answer st = py_None /\
    _handle_react_response turn_response =
      match tool_results st with
      | [] => (t, Return tt)
      | (_ :: _) as recorded =>
          (t ++ Yield (nl +:+ nl +:+ "**Here's what I found:**" +:+ nl)
             :: trace (for_each recorded summarise_tool_result),
           result (for_each recorded summarise_tool_result))
      end.
Proof.
  intros Hall.
  destruct (react_for_next turn_response react_init Hall) as (t & st & E & F).
  exists t, st. split; [exact E |]. split; [exact F |].
  unfold _handle_react_response, wants_summary. rewrite E, bind_return, F.
  cbn [truthy negb andb].
  destruct (tool_results st) as [| entry entries].
  - cbn [pass mret py_ret trace result fst snd]. rewrite app_nil_r. reflexivity.
  - unfold _format_tool_results_summary. rewrite yield_bind. reflexivity.
Qed.

End SummaryMore.

(** * Further properties of the user routes *)

Lemma filter_none {A} (f : A -> bool) (l : list A) :
  (forall x, x ∈ l -> f x = false) -> List.filter f l = [].
Proof.
  induction l as [| x l IH]; intros Hf; [reflexivity |].
  cbn [List.filter]. rewrite (Hf x) by (apply elem_of_cons; auto).
  apply IH. intros y Hy. apply Hf, elem_of_cons. auto.
Qed.

Lemma filter_elem {A} (f : A -> bool) (l : list A) (x : A) :
  x ∈ List.filter f l <-> x ∈ l /\ f x = true.
Proof. rewrite !list_elem_of_In. apply filter_In. Qed.

Section UsersMore.
Context `{Users.Backend}.
Import Users.

Lemma rows_elem (db : gmap N models.User) (user : models.User) :
  user ∈ rows db <-> exists i, db !! i = Some user.
Proof.
  unfold rows. rewrite list_elem_of_fmap. split.
  - intros ([i u] & -> & Hin). exists i. apply elem_of_map_to_list. exact Hin.
  - intros (i & Hi). exists (i, user). split; [reflexivity |].
    apply elem_of_map_to_list. exact Hi.
Qed.

(** X11. A successful [update_user] changes one row: the user under the
    id keeps its id, every other id has the user it had, and the table
    has the ids it had. *)
Theorem update_user_touches_one_row
    (user_id : N) (user : schemas.UserCreate) (db db' : gmap N models.User)
    (updated : models.User) :
  update_user user_id user db = (Ok updated, db') ->
  (exists old, db !! user_id = Some old /\ models.id updated = models.id old) /\
  (forall other, other <> user_id -> db' !! other = db !! other) /\
  dom db' = dom db.
Proof.
  unfold update_user, commit. destruct (db !! user_id) as [old |] eqn:Hold; [| discriminate].
  destruct (admits _); [| discriminate].
  intros E. inversion E; subst. split; [eauto |]. split.
  - intros other Hne. apply lookup_insert_ne. congruence.
  - apply dom_insert_lookup_L. rewrite Hold. eauto.
Qed.

(** X12. A write that does not answer with success leaves the table as it
    was; and on an id the table does not have, [update_user] and
    [delete_user] answer 404 "User not found". *)
Theorem failed_write_changes_nothing
    (user : schemas.UserCreate) (salt : string) (user_id : N) (db : gmap N models.User) :
  ((exists created, fst (create_user user salt user_id db) = Ok created) \/
     snd (create_user user salt user_id db) = db) /\
  ((exists updated, fst (update_user user_id user db) = Ok updated) \/
     snd (update_user user_id user db) = db) /\
  (fst (delete_user user_id db) = Ok tt \/ snd (delete_user user_id db) = db) /\
  match db !! user_id with
  | None =>
      update_user user_id user db = (HTTPException 404 "User not found", db) /\
      delete_user user_id db = (HTTPException 404 "User not found", db)
  | Some _ => True
  end.
Proof.
  unfold create_user, update_user, delete_user, commit.
  destruct (db !! user_id) as [old |]; repeat split;
    repeat match goal with |- context [admits ?m] => destruct (admits m) end;
    simpl; eauto.
Qed.

(** X13. After a successful [delete_user] the id answers 404, every other
    id answers as before, and the table has one user less. *)
Theorem delete_user_then_read (user_id : N) (db db' : gmap N models.User) :
  delete_user user_id db = (Ok tt, db') ->
  read_user user_id db' = HTTPException 404 "User not found" /\
  (forall other, other <> user_id -> read_user other db' = read_user other db) /\
  size db = S (size db').
Proof.
  unfold delete_user, commit, read_user.
  destruct (db !! user_id) as [old |] eqn:Hold; [| discriminate].
  destruct (admits _); [| discriminate].
  intros E. inversion E; subst. rewrite lookup_delete_eq. split; [reflexivity |]. split.
  - intros other Hne. rewrite lookup_delete_ne by congruence. reflexivity.
  - rewrite map_size_delete_Some by (rewrite Hold; eauto).
    assert (size db <> 0%nat); [| lia].
    intros Hz. apply map_size_empty_inv in Hz. subst db. rewrite lookup_empty in Hold.
    discriminate.
Qed.

(** X14. After a successful [create_user] the new id answers with the user
    created, who has the name, email and role of the request; the id was
    free before, every other id answers as before, and the table has one
    user more. *)
Theorem create_user_then_read
    (user : schemas.UserCreate) (salt : string) (new_id : N)
    (db db' : gmap N models.User) (created : models.User) :
  create_user user salt new_id db = (Ok created, db') ->
  read_user new_id db' = Ok created /\
  models.id created = new_id /\
  models.username created = schemas.username user /\
  models.email created = schemas.email user /\
  models.role created = schemas.role user /\
  db !! new_id = None /\
  (forall other, other <> new_id -> read_user other db' = read_user other db) /\
  size db' = S (size db).
Proof.
  unfold create_user, commit, read_user.
  destruct (db !! new_id) as [old |] eqn:Hold; [discriminate |].
  destruct (admits _); [| discriminate].
  intros E. inversion E; subst. rewrite lookup_insert_eq.
  repeat split; try reflexivity.
  - intros other Hne. rewrite lookup_insert_ne by congruence. reflexivity.
  - apply map_size_insert_None. exact Hold.
Qed.

(** X15. [read_users] answers with the users of the table: as many as the
    table has, and a user is in the answer exactly when some id has it. *)
Theorem read_users_lists_the_table (db : gmap N models.User) :
  exists users,
    read_users db = Ok users /\
    length users = size db /\
    forall user, user ∈ users <-> exists i, db !! i = Some user.
Proof.
  exists (rows db). split; [reflexivity |]. split.
  - unfold rows. rewrite length_fmap. apply length_map_to_list.
  - apply rows_elem.
Qed.

(** X16. The lookup by username answers only with a user of the table
    that has this username, and it answers 404 exactly when no user of the
    table has it. *)
Theorem read_user_by_username_sound (username : string) (db : gmap N models.User) :
  (forall user, read_user_by_username username db = Some (Ok user) ->
     models.username user = username /\ exists i, db !! i = Some user) /\
  (read_user_by_username username db = Some (HTTPException 404 "User not found") <->
   forall i user, db !! i = Some user -> models.username user <> username).
Proof.
  unfold read_user_by_username, scalar_one_or_none.
  destruct (List.filter _ (rows db)) as [| u [| v l]] eqn:Ef.
  - split; [discriminate |]. split; [| reflexivity].
    intros _ i user Hi Hname.
    assert (Hin : user ∈ List.filter
              (fun user => String.eqb (models.username user) username) (rows db)).
    { apply filter_elem. split; [apply rows_elem; eauto |]. apply String.eqb_eq, Hname. }
    rewrite Ef in Hin. inversion Hin.
  - assert (Hin : u ∈ List.filter
              (fun user => String.eqb (models.username user) username) (rows db))
      by (rewrite Ef; apply elem_of_cons; auto).
    apply filter_elem in Hin. destruct Hin as [Hrow Hname].
    apply String.eqb_eq in Hname. apply rows_elem in Hrow. split.
    + intros user E. inversion E; subst. auto.
    + split; [discriminate |]. intros Hnone. destruct Hrow as (i & Hi).
      destruct (Hnone i u Hi Hname).
  - assert (Hin : u ∈ List.filter
              (fun user => String.eqb (models.username user) username) (rows db))
      by (rewrite Ef; apply elem_of_cons; auto).
    apply filter_elem in Hin. destruct Hin as [Hrow Hname].
    apply String.eqb_eq in Hname. apply rows_elem in Hrow.
    split; [discriminate |]. split; [discriminate |].
    intros Hnone. destruct Hrow as (i & Hi). destruct (Hnone i u Hi Hname).
Qed.

Lemma filter_unique_row (l : list (N * models.User)) (i : N) (user : models.User) :
  NoDup l.*1 ->
  (i, user) ∈ l ->
  (forall j other, (j, other) ∈ l ->
     models.username other = models.username user -> j = i) ->
  List.filter (fun u => String.eqb (models.username u) (models.username user)) l.*2
    = [user].
Proof.
  induction l as [| [j v] l IH]; intros Hnd Hin Huniq; [inversion Hin |].
  cbn [fmap list_fmap fst snd] in *. apply NoDup_cons in Hnd. destruct Hnd as [Hj Hnd].
  cbn [List.filter]. apply elem_of_cons in Hin. destruct Hin as [Heq | Hin].
  - inversion Heq; subst j v. rewrite String.eqb_refl. f_equal.
    apply filter_none. intros w Hw. apply list_elem_of_fmap in Hw.
    destruct Hw as ([k w'] & -> & Hkw). cbn [snd].
    destruct (String.eqb_spec (models.username w') (models.username user)) as [Hn |];
      [| reflexivity].
    assert (k = i) by (apply (Huniq k w'); [apply elem_of_cons; auto | exact Hn]).
    subst k. destruct Hj. apply list_elem_of_fmap. exists (i, w'). auto.
  - destruct (String.eqb_spec (models.username v) (models.username user)) as [Hn |].
    + assert (j = i) by (apply (Huniq j v); [apply elem_of_cons; auto | exact Hn]).
      subst j. destruct Hj. apply list_elem_of_fmap. exists (i, user). auto.
    + apply IH; [exact Hnd | exact Hin |].
      intros k w Hk. apply Huniq, elem_of_cons. auto.
Qed.

(** X17. In a table where no two ids have users of the same username, the
    lookup by username finds every user of the table by its username; the
    error of several matching rows does not arise. *)
Theorem read_user_by_username_finds (db : gmap N models.User) (i : N) (user : models.User) :
  (forall j k u v, db !! j = Some u -> db !! k = Some v ->
     models.username u = models.username v -> j = k) ->
  db !! i = Some user ->
  read_user_by_username (models.username user) db = Some (Ok user).
Proof.
  intros Huniq Hi. unfold read_user_by_username, rows.
  rewrite (filter_unique_row (map_to_list db) i user); [reflexivity | ..].
  - apply NoDup_fst_map_to_list.
  - apply elem_of_map_to_list, Hi.
  - intros j other Hj Hname. apply elem_of_map_to_list in Hj.
    apply (Huniq j i other user Hj Hi Hname).
Qed.

(** X18. [update_user] is idempotent: the same request sent again to the
    table a successful update left gives the same answer and the same
    table. *)
Theorem update_user_idempotent
    (user_id : N) (user : schemas.UserCreate) (db db' : gmap N models.User)
    (updated : models.User) :
  update_user user_id user db = (Ok updated, db') ->
  update_user user_id user db' = (Ok updated, db').
Proof.
  unfold update_user, commit. destruct (db !! user_id) as [old |]; [| discriminate].
  destruct (admits (<[user_id := _]> db)) eqn:Hadmits; [| discriminate].
  intros E. inversion E; subst. rewrite lookup_insert_eq. cbn [models.id].
  rewrite insert_insert_eq, Hadmits. reflexivity.
Qed.

End UsersMore.

(** * Properties of the chat object *)

Section SessionFacts.
Context `{Chat.Runtime} `{Session.SDK}.
Import Session.

Lemma existsb_eqb_elem (s : string) (l : list string) :
  existsb (String.eqb s) l = true <-> s ∈ l.
Proof.
  rewrite existsb_exists, list_elem_of_In. split.
  - intros (x & Hin & Heq). apply String.eqb_eq in Heq. subst. exact Hin.
  - intros Hin. exists s. split; [exact Hin | apply String.eqb_refl].
Qed.

(** X19. [_get_tools] offers the RAG tool exactly when the assistant has
    at least one MCP tool, the client lists the tool group [builtin::rag]
    and the assistant has a knowledge base; the tool then carries the
    vector database names of all knowledge bases.  An MCP tool is offered
    exactly when it is one of the assistant's.  Without any MCP tool the
    list is empty, knowledge bases or not. *)
Theorem get_tools_offer (self : chat) (c : client) :
  (forall ids, rag_tool ids ∈ _get_tools self c <->
     exists comps, chat_components self = Some comps /\
       tools comps <> [] /\
       "builtin::rag" ∈ toolgroups_list c /\
       knowledge_bases comps <> [] /\
       ids = map vector_db_name (knowledge_bases comps)) /\
  (forall n, mcp_tool n ∈ _get_tools self c <->
     exists comps, chat_components self = Some comps /\ n ∈ map name (tools comps)) /\
  (length (_get_tools self c)
     <= S (match chat_components self with
           | Some comps => length (tools comps)
           | None => 0
           end))%nat.
Proof.
  unfold _get_tools. destruct (chat_components self) as [comps |].
  2: { split; [| split].
       - intros ids. split; [intros Hin; inversion Hin | intros (x & E & _); discriminate E].
       - intros n. split; [intros Hin; inversion Hin | intros (x & E & _); discriminate E].
       - simpl. lia. }
  assert (Hmcp : forall n l, mcp_tool n ∈ map (fun t => mcp_tool (name t)) l <-> n ∈ map name l).
  { intros n l. rewrite !list_elem_of_fmap. split.
    - intros (t & E & Hin). inversion E; subst. eauto.
    - intros (t & -> & Hin). eauto. }
  assert (Hrag : forall ids l, ~ rag_tool ids ∈ map (fun t => mcp_tool (name t)) l).
  { intros ids l Hin. apply list_elem_of_fmap in Hin. destruct Hin as (t & E & _).
    discriminate E. }
  set (offer := existsb (String.eqb "builtin::rag") (toolgroups_list c)
                && match knowledge_bases comps with [] => false | _ :: _ => true end).
  assert (Hoffer : offer = true <->
            "builtin::rag" ∈ toolgroups_list c /\ knowledge_bases comps <> []).
  { subst offer. rewrite andb_true_iff, existsb_eqb_elem.
    destruct (knowledge_bases comps); split; intros [Hg Hk]; split; auto; congruence. }
  destruct (tools comps) as [| t ts] eqn:Et.
  { cbn [map]. split; [| split].
    - intros ids. split; [intros Hin; inversion Hin |].
      intros (x & E & Hne & _). inversion E; subst. rewrite Et in Hne. congruence.
    - intros n. split; [intros Hin; inversion Hin |].
      intros (x & E & Hin). inversion E; subst. rewrite Et in Hin. inversion Hin.
    - simpl. lia. }
  change (mcp_tool (name t) :: map (fun t => mcp_tool (name t)) ts)
    with (map (fun t => mcp_tool (name t)) (t :: ts)).
  cbn [map]. change (mcp_tool (name t) :: map (fun t => mcp_tool (name t)) ts)
    with (map (fun t => mcp_tool (name t)) (t :: ts)).
  rewrite <- Et. destruct offer eqn:Hoff.
  - destruct (proj1 Hoffer eq_refl) as [Hg Hk]. split; [| split].
    + intros ids. rewrite elem_of_app, list_elem_of_singleton. split.
      * intros [Hin | Hin]; [exfalso; exact (Hrag _ _ Hin) |].
        inversion Hin; subst. exists comps. rewrite Et. repeat split; auto; congruence.
      * intros (x & E & _ & _ & _ & ->). inversion E; subst. right. reflexivity.
    + intros n. rewrite elem_of_app, list_elem_of_singleton, Hmcp. split.
      * intros [Hin | Hin]; [eauto | discriminate Hin].
      * intros (x & E & Hin). inversion E; subst. left. exact Hin.
    + rewrite length_app, length_map. simpl. lia.
  - assert (Hno : ~ ("builtin::rag" ∈ toolgroups_list c /\ knowledge_bases comps <> [])).
    { intros Hboth. apply Hoffer in Hboth. discriminate Hboth. }
    split; [| split].
    + intros ids. split; [intros Hin; exfalso; exact (Hrag _ _ Hin) |].
      intros (x & E & _ & Hg & Hk & _). inversion E; subst. destruct Hno. auto.
    + intros n. rewrite Hmcp. split; [eauto |].
      intros (x & E & Hin). inversion E; subst. exact Hin.
    + rewrite length_map. lia.
Qed.

Lemma filter_llm_none (models : list model_info) :
  Forall (fun m => api_model_type m <> "llm") models ->
  List.filter (fun m => String.eqb (api_model_type m) "llm") models = [].
Proof.
  intros Hall. apply filter_none. intros m Hm.
  rewrite Forall_forall in Hall. apply String.eqb_neq, Hall. exact Hm.
Qed.

(** X20. [_get_model] answers with the model name of the components when
    the chat has them, whatever the client lists.  Without components it
    answers with the first model of the client's list whose type is
    [llm], the models before it being passed over, and it fails with an
    [IndexError] when the list has no such model. *)
Theorem get_model_choice (self : chat) (c : client) :
  (forall comps, chat_components self = Some comps ->
     _get_model self c = Got (model_name (model_server comps))) /\
  (forall others first rest,
     chat_components self = None ->
     models_list c = others ++ first :: rest ->
     Forall (fun m => api_model_type m <> "llm") others ->
     api_model_type first = "llm" ->
     _get_model self c = Got (identifier first)) /\
  (chat_components self = None ->
   Forall (fun m => api_model_type m <> "llm") (models_list c) ->
   _get_model self c = Failed IndexError_empty_list).
Proof.
  unfold _get_model. split; [| split].
  - intros comps ->. reflexivity.
  - intros others first rest -> -> Hothers Hllm.
    rewrite List.filter_app, (filter_llm_none others Hothers). cbn [app List.filter].
    rewrite Hllm. reflexivity.
  - intros -> Hall. rewrite (filter_llm_none _ Hall). reflexivity.
Qed.

(** X21. What [_response_generator] can do.  In ReAct mode it raises a
    [TypeError] before it reads an event, whatever the turn is: the plain
    generator that [_handle_react_response] returns has no [__aiter__].
    It ends normally only out of ReAct mode and over an asynchronous
    generator of events, and then it has yielded what the Regular ruleset
    yields for them.  And when it fails, in any mode, it fails with that
    [TypeError] and has yielded nothing. *)
Theorem response_generator_outcomes (self : chat) (turn_response : iterable Chat.response) :
  (agent_type (session self) = Some REACT ->
   _response_generator self turn_response = ([], Failed TypeError_async_for)) /\
  (forall t,
     _response_generator self turn_response = (t, Got tt) <->
     agent_type (session self) <> Some REACT /\
     exists events,
       turn_response = async_generator events /\
       t = trace (Chat._handle_regular_response events)) /\
  (forall t e,
     _response_generator self turn_response = (t, Failed e) ->
     t = [] /\ e = TypeError_async_for).
Proof.
  unfold _response_generator, _handle_react_response, _handle_regular_response,
    async_for, async_for_in.
  split; [intros ->; reflexivity |]. split.
  - intros t. split.
    + destruct (agent_type (session self)) as [[|] |]; try discriminate;
        (destruct turn_response as [events | events]; [discriminate |]);
        rewrite regular_response_trace; intros E; inversion E;
        (split; [discriminate |]); exists events;
        (split; [reflexivity | rewrite regular_response_trace; reflexivity]).
    + intros (Hmode & events & -> & ->). rewrite regular_response_trace.
      destruct (agent_type (session self)) as [[|] |]; try reflexivity. congruence.
  - intros t e.
    destruct (agent_type (session self)) as [[|] |];
      try (destruct turn_response as [events | events];
           [| rewrite regular_response_trace]);
      intros E; inversion E; split; reflexivity.
Qed.

(** X22. [stream] always applies the Regular ruleset.  Whenever the
    components are at hand, already in the chat or fetched now, and
    whatever the session state said before (ReAct included), the call
    builds a regular agent for the model of the components with 512
    tokens, uses the session id of the state or else a new one, and leaves
    the mode Regular and the session id in the state.  What it yields
    depends on what the agent's [create_turn] returns: over the plain
    generator of the synchronous agent the [async for] of
    [_handle_regular_response] raises a [TypeError] before the first
    fragment; over an asynchronous generator the call yields what the
    Regular ruleset yields for the events and ends normally. *)
Theorem stream_runs_regular (self : chat) (prompt : string)
    (fetched : attempt components) (uuid : string) (c : client) (comps : components) :
  match chat_components self with Some x => Got x | None => fetched end = Got comps ->
  let configured :=
    {| user_id := user_id self; virtual_assistant_id := virtual_assistant_id self;
       session := session self; chat_components := Some comps |} in
  let agent :=
    Agent (model_name (model_server comps))
      "You are a helpful assistant. When you use a tool always respond with a summary of the result."
      (_get_tools configured c) 512 in
  let session_id :=
    match agent_session_id (session self) with
    | Some id => id
    | None => create_session agent ("tool_demo_" +:+ uuid)
    end in
  stream self prompt fetched uuid c =
    ({| user_id := user_id self; virtual_assistant_id := virtual_assistant_id self;
        session := {| agent_type := Some REGULAR;
                      messages := messages (session self);
                      agent_session_id := Some session_id |};
        chat_components := Some comps |},
     match create_turn agent session_id prompt with
     | generator _ => ([], Failed TypeError_async_for)
     | async_generator events =>
         (flat_map (fun r => trace (Chat.regular_event r)) events, Got tt)
     end).
Proof.
  intros Hcomps configured agent session_id. unfold stream. rewrite Hcomps.
  cbn [_get_model chat_components session agent_type messages agent_session_id
       user_id virtual_assistant_id _create_agent].
  unfold _response_generator. cbn [session agent_type].
  unfold _handle_regular_response, async_for, async_for_in.
  subst session_id agent configured. unfold _get_tools. cbn [chat_components].
  match goal with
  | |- context [create_turn ?a ?s ?p] => destruct (create_turn a s p) as [events | events]
  end; [reflexivity |].
  rewrite regular_response_trace. reflexivity.
Qed.

(** X23. A chat that has its components keeps its session: a second
    [stream] uses the session id the first one left, asks for no new
    session and fetches nothing, so its result does not depend on what a
    fetch would give or on the new uuid. *)
Theorem stream_reuses_session
    (self self1 : chat) (prompt1 prompt2 : string) (fetched1 fetched2 fetched2' : attempt components)
    (uuid1 uuid2 uuid2' : string) (c1 c2 : client) (out1 : list effect * attempt unit) :
  stream self prompt1 fetched1 uuid1 c1 = (self1, out1) ->
  chat_components self1 <> None ->
  exists session_id,
    agent_session_id (session self1) = Some session_id /\
    agent_session_id (session (fst (stream self1 prompt2 fetched2 uuid2 c2)))
      = Some session_id /\
    chat_components (fst (stream self1 prompt2 fetched2 uuid2 c2)) = chat_components self1 /\
    stream self1 prompt2 fetched2' uuid2' c2 = stream self1 prompt2 fetched2 uuid2 c2.
Proof.
  intros E Hcomps. unfold stream in E.
  destruct (match chat_components self with Some x => Got x | None => fetched1 end)
    as [comps | e] eqn:Ec.
  2: { inversion E; subst. destruct (chat_components self1); [discriminate Ec | congruence]. }
  cbn [_get_model chat_components session agent_type messages agent_session_id] in E.
  inversion E; subst. clear E.
  eexists. split; [reflexivity |].
  unfold stream. cbn [chat_components session agent_session_id _get_model fst].
  repeat split.
Qed.

(** X24. [_reset_agent] forgets the session and keeps the components: the
    next [stream] fetches nothing, opens a new session named after the new
    uuid and sets the mode to Regular again.  As in every call, what it
    yields depends on [create_turn]: a [TypeError] before the first
    fragment over a plain generator, the output of the Regular ruleset
    over an asynchronous one. *)
Theorem reset_then_stream_opens_session (self : chat) (prompt : string)
    (fetched : attempt components) (uuid : string) (c : client) (comps : components) :
  chat_components self = Some comps ->
  let agent :=
    Agent (model_name (model_server comps))
      "You are a helpful assistant. When you use a tool always respond with a summary of the result."
      (_get_tools self c) 512 in
  let session_id := create_session agent ("tool_demo_" +:+ uuid) in
  agent_session_id (session (_reset_agent self)) = None /\
  stream (_reset_agent self) prompt fetched uuid c =
    ({| user_id := user_id self; virtual_assistant_id := virtual_assistant_id self;
        session := {| agent_type := Some REGULAR; messages := None;
                      agent_session_id := Some session_id |};
        chat_components := Some comps |},
     match create_turn agent session_id prompt with
     | generator _ => ([], Failed TypeError_async_for)
     | async_generator events =>
         (flat_map (fun r => trace (Chat.regular_event r)) events, Got tt)
     end).
Proof.
  intros Hcomps agent session_id. split; [reflexivity |].
  unfold stream. cbn [_reset_agent chat_components]. rewrite Hcomps.
  cbn [_get_model chat_components session agent_type messages agent_session_id
       user_id virtual_assistant_id _create_agent].
  unfold _response_generator. cbn [session agent_type].
  unfold _handle_regular_response, async_for, async_for_in.
  subst session_id agent. unfold _get_tools.
  cbn [_reset_agent chat_components session agent_session_id messages user_id
       virtual_assistant_id].
  rewrite Hcomps.
  match goal with
  | |- context [create_turn ?a ?s ?p] => destruct (create_turn a s p) as [events | events]
  end; [reflexivity |].
  rewrite regular_response_trace. reflexivity.
Qed.

End SessionFacts.

(** * The further properties at concrete inputs *)

(** A tool step, then the answer 42. *)
Lemma react_summary_follows_tool_results_witness :
  let turn_response :=
    [tool_step [("lookup", status_text)]; progress (answer_text "42"); inference_step] in
  Forall (fun r => Chat.event_payload r <> None) turn_response /\
  exists t st,
    Chat.react_for turn_response Chat.react_init = (t, Return (Chat.Next st)) /\
    Chat.final_answer st = py_None /\
    Chat._handle_react_response turn_response =
      match Chat.tool_results st with
      | [] => (t, Return tt)
      | (_ :: _) as recorded =>
          (t ++ Yield (nl +:+ nl +:+ "**Here's what I found:**" +:+ nl)
             :: trace (for_each recorded Chat.summarise_tool_result),
           result (for_each recorded Chat.summarise_tool_result))
      end.
Proof.
  intros turn_response.
  assert (Hall : Forall (fun r => Chat.event_payload r <> None) turn_response)
    by (repeat constructor; discriminate).
  split; [exact Hall | exact (react_summary_follows_tool_results turn_response Hall)].
Defined.



(** A turn whose tool answered with an integer of 4301 digits, and a turn
    whose tool answered with a text that is no JSON. *)
Lemma react_raises_only_from_summary_witness :
  let long_turn := [tool_step [("count", long_integer_text)]] in
  let plain_turn := [tool_step [("a", "oops")]] in
  result (Chat._handle_react_response long_turn) = Raise (integer_too_long 4301) /\
  (exists t st tool_name content,
     Chat.react_for long_turn Chat.react_init = (t, Return (Chat.Next st)) /\
     (tool_name, content) ∈ Chat.tool_results st /\
     Chat.json_loads content = None /\
     Chat.json_loads_error content <> invalid_json /\
     integer_too_long 4301 = loads_exn content (Chat.json_loads_error content)) /\
  result (Chat._handle_react_response plain_turn) = Return tt.
Proof.
  intros long_turn plain_turn.
  assert (E : result (Chat._handle_react_response long_turn) = Raise (integer_too_long 4301))
    by (vm_compute; reflexivity).
  destruct (react_raises_only_from_summary long_turn) as (_ & Hraise & _).
  destruct (react_raises_only_from_summary plain_turn) as (_ & _ & Hreturn).
  split; [exact E |]. split; [exact (Hraise _ E) |].
  eapply Hreturn.
  - vm_compute. reflexivity.
  - constructor; [intros _; reflexivity | constructor].
Defined.


(** A tool that answered with a number. *)
Lemma unstructured_content_is_silent_witness :
  Chat.json_loads "5" = Some (JInt 5) /\
  Chat.structured (JInt 5) = false /\
  fragments (trace (Chat.summarise_tool_result ("calc", "5"))) = [].
Proof.
  split; [reflexivity |]. split; [reflexivity |].
  apply (unstructured_content_is_silent "calc" "5" (JInt 5)); reflexivity.
Defined.

Lemma update_user_touches_one_row_witness :
  Users.update_user 7 ada_request two_users
    = (Users.Ok ada_updated, <[7%N := ada_updated]> two_users) /\
  (exists old, two_users !! 7%N = Some old /\
               Users.models.id ada_updated = Users.models.id old) /\
  (forall other, other <> 7%N ->
     <[7%N := ada_updated]> two_users !! other = two_users !! other) /\
  dom (<[7%N := ada_updated]> two_users) = dom two_users.
Proof.
  assert (E : Users.update_user 7 ada_request two_users
              = (Users.Ok ada_updated, <[7%N := ada_updated]> two_users)) by reflexivity.
  split; [exact E |].
  exact (update_user_touches_one_row 7 ada_request two_users _ ada_updated E).
Defined.

Lemma delete_user_then_read_witness :
  Users.delete_user 7 two_users = (Users.Ok tt, delete 7%N two_users) /\
  Users.read_user 7 (delete 7%N two_users) = Users.HTTPException 404 "User not found" /\
  (forall other, other <> 7%N ->
     Users.read_user other (delete 7%N two_users) = Users.read_user other two_users) /\
  size two_users = S (size (delete 7%N two_users)).
Proof.
  assert (E : Users.delete_user 7 two_users = (Users.Ok tt, delete 7%N two_users))
    by reflexivity.
  split; [exact E |]. exact (delete_user_then_read 7 two_users _ E).
Defined.

Lemma create_user_then_read_witness :
  Users.create_user bob_request "salt" 8 one_user = (Users.Ok bob, two_users) /\
  Users.read_user 8 two_users = Users.Ok bob /\
  Users.models.id bob = 8%N /\
  Users.models.username bob = "bob" /\
  Users.models.email bob = "bob@example.org" /\
  Users.models.role bob = "user" /\
  one_user !! 8%N = None /\
  (forall other, other <> 8%N ->
     Users.read_user other two_users = Users.read_user other one_user) /\
  size two_users = S (size one_user).
Proof.
  assert (E : Users.create_user bob_request "salt" 8 one_user = (Users.Ok bob, two_users))
    by reflexivity.
  split; [exact E |]. exact (create_user_then_read bob_request "salt" 8 one_user _ bob E).
Defined.

Lemma read_user_by_username_sound_witness :
  (Users.read_user_by_username "bob" two_users = Some (Users.Ok bob) /\
   Users.models.username bob = "bob" /\ exists i, two_users !! i = Some bob) /\
  (Users.read_user_by_username "eve" two_users
     = Some (Users.HTTPException 404 "User not found") /\
   forall i user, two_users !! i = Some user -> Users.models.username user <> "eve").
Proof.
  destruct (read_user_by_username_sound "bob" two_users) as [Hfound _].
  destruct (read_user_by_username_sound "eve" two_users) as [_ Hnone].
  assert (Ebob : Users.read_user_by_username "bob" two_users = Some (Users.Ok bob))
    by (vm_compute; reflexivity).
  assert (Eeve : Users.read_user_by_username "eve" two_users
                 = Some (Users.HTTPException 404 "User not found"))
    by (vm_compute; reflexivity).
  split; (split; [assumption |]).
  - exact (Hfound bob Ebob).
  - exact (proj1 Hnone Eeve).
Defined.

Lemma two_users_lookup (i : N) (user : Users.models.User) :
  two_users !! i = Some user -> (i = 7%N /\ user = ada_before) \/ (i = 8%N /\ user = bob).
Proof.
  unfold two_users, one_user. intros Hi.
  apply lookup_insert_Some in Hi. destruct Hi as [[<- <-] | [_ Hi]]; [auto |].
  apply lookup_singleton_Some in Hi. destruct Hi as [<- <-]. auto.
Defined.

Lemma read_user_by_username_finds_witness :
  (forall j k u v, two_users !! j = Some u -> two_users !! k = Some v ->
     Users.models.username u = Users.models.username v -> j = k) /\
  two_users !! 7%N = Some ada_before /\
  Users.read_user_by_username "ada" two_users = Some (Users.Ok ada_before).
Proof.
  assert (Huniq : forall j k u v, two_users !! j = Some u -> two_users !! k = Some v ->
            Users.models.username u = Users.models.username v -> j = k).
  { intros j k u v Hj Hk Hname.
    destruct (two_users_lookup j u Hj) as [[-> ->] | [-> ->]];
      destruct (two_users_lookup k v Hk) as [[-> ->] | [-> ->]];
      try reflexivity; discriminate Hname. }
  assert (Hi : two_users !! 7%N = Some ada_before) by reflexivity.
  split; [exact Huniq |]. split; [exact Hi |].
  exact (read_user_by_username_finds two_users 7 ada_before Huniq Hi).
Defined.

Lemma update_user_idempotent_witness :
  Users.update_user 7 ada_request two_users
    = (Users.Ok ada_updated, <[7%N := ada_updated]> two_users) /\
  Users.update_user 7 ada_request (<[7%N := ada_updated]> two_users)
    = (Users.Ok ada_updated, <[7%N := ada_updated]> two_users).
Proof.
  assert (E : Users.update_user 7 ada_request two_users
              = (Users.Ok ada_updated, <[7%N := ada_updated]> two_users)) by reflexivity.
  split; [exact E |].
  exact (update_user_idempotent 7 ada_request two_users _ ada_updated E).
Defined.

Example get_tools_of_assistant :
  Session._get_tools react_chat llama_client
    = [Session.mcp_tool "weather"; Session.mcp_tool "search"; Session.rag_tool ["docs-v1"]].
Proof. reflexivity. Qed.

Lemma get_model_choice_witness :
  Session._get_model react_chat llama_client = Session.Got "granite" /\
  Session._get_model fresh_chat llama_client = Session.Got "llama" /\
  Session._get_model fresh_chat embedding_client = Session.Failed Session.IndexError_empty_list.
Proof.
  destruct (get_model_choice react_chat llama_client) as (Hconfigured & _ & _).
  destruct (get_model_choice fresh_chat llama_client) as (_ & Hfirst & _).
  destruct (get_model_choice fresh_chat embedding_client) as (_ & _ & Hnone).
  split; [| split].
  - exact (Hconfigured assistant eq_refl).
  - apply (Hfirst
      [{| Session.identifier := "minilm"; Session.api_model_type := "embedding" |}]
      {| Session.identifier := "llama"; Session.api_model_type := "llm" |}
      [{| Session.identifier := "mistral"; Session.api_model_type := "llm" |}]);
      [reflexivity | reflexivity | repeat constructor; discriminate | reflexivity].
  - apply Hnone; [reflexivity | repeat constructor; discriminate].
Defined.

(** A chat in ReAct mode and a chat in Regular mode, each over an
    asynchronous generator of one text delta; and the chat in Regular mode
    over a plain generator. *)
Lemma response_generator_outcomes_witness :
  Session._response_generator react_chat (Session.async_generator [progress "hi"])
    = ([], Session.Failed Session.TypeError_async_for) /\
  Session._response_generator fresh_chat (Session.async_generator [progress "hi"])
    = ([Print "step_progress"; Yield "hi"], Session.Got tt) /\
  Session._response_generator fresh_chat (Session.generator [progress "hi"])
    = ([], Session.Failed Session.TypeError_async_for).
Proof.
  destruct (response_generator_outcomes react_chat
              (Session.async_generator [progress "hi"])) as (Hreact & _ & _).
  destruct (response_generator_outcomes fresh_chat
              (Session.async_generator [progress "hi"])) as (_ & Hregular & _).
  destruct (response_generator_outcomes fresh_chat
              (Session.generator [progress "hi"])) as (_ & _ & Hfails).
  split; [apply Hreact; reflexivity |]. split.
  - apply Hregular. split; [discriminate |].
    exists [progress "hi"]. split; reflexivity.
  - destruct (Session._response_generator fresh_chat (Session.generator [progress "hi"]))
      as [t [[] | e]] eqn:E; [discriminate E |].
    destruct (Hfails t e eq_refl) as [-> ->]. reflexivity.
Defined.

(** The chat whose state says ReAct streams in Regular mode: with the
    synchronous agent the call ends in the [TypeError], with an
    asynchronous one it yields the deltas. *)
Lemma stream_runs_regular_witness :
  let unused := Session.Failed (Session.ValueError "unused") in
  let after :=
    {| Session.user_id := 1; Session.virtual_assistant_id := 2;
       Session.session := {| Session.agent_type := Some Session.REGULAR;
                             Session.messages := Some [];
                             Session.agent_session_id := Some "tool_demo_u1" |};
       Session.chat_components := Some assistant |} in
  Session.stream react_chat "hello" unused "u1" llama_client
    = (after, ([], Session.Failed Session.TypeError_async_for)) /\
  @Session.stream runtime async_sdk react_chat "hello" unused "u1" llama_client
    = (after,
       ([Print "step_progress"; Yield "hello"; Print "step_start";
         Print "step_progress"; Yield "!"],
        Session.Got tt)).
Proof.
  intros unused after. split.
  - rewrite (stream_runs_regular react_chat "hello" unused "u1" llama_client assistant eq_refl).
    reflexivity.
  - rewrite (@stream_runs_regular runtime async_sdk react_chat "hello" unused "u1"
               llama_client assistant eq_refl).
    reflexivity.
Defined.

(** Two prompts to a fresh chat: one session. *)
Lemma stream_reuses_session_witness :
  let first := Session.stream fresh_chat "one" (Session.Got assistant) "u1" llama_client in
  Session.chat_components (fst first) <> None /\
  Session.agent_session_id (Session.session (fst first)) = Some "tool_demo_u1" /\
  Session.agent_session_id
    (Session.session (fst (Session.stream (fst first) "two"
                             (Session.Failed (Session.ValueError "down")) "u2" llama_client)))
    = Some "tool_demo_u1".
Proof.
  intros first.
  assert (Hcomps : Session.chat_components (fst first) <> None) by discriminate.
  destruct (stream_reuses_session fresh_chat (fst first) "one" "two"
              (Session.Got assistant) (Session.Failed (Session.ValueError "down"))
              (Session.Failed (Session.ValueError "down")) "u1" "u2" "u2"
              llama_client llama_client (snd first))
    as (session_id & Hfirst & Hsecond & _ & _);
    [apply surjective_pairing | exact Hcomps |].
  split; [exact Hcomps |].
  assert (Hid : session_id = "tool_demo_u1") by (vm_compute in Hfirst; congruence).
  subst session_id. split; [exact Hfirst | exact Hsecond].
Defined.

Lemma reset_then_stream_opens_session_witness :
  let down := Session.Failed (Session.ValueError "down") in
  let used :=
    fst (Session.stream fresh_chat "one" (Session.Got assistant) "u1" llama_client) in
  let after :=
    {| Session.user_id := 1; Session.virtual_assistant_id := 2;
       Session.session := {| Session.agent_type := Some Session.REGULAR;
                             Session.messages := None;
                             Session.agent_session_id := Some "tool_demo_u2" |};
       Session.chat_components := Some assistant |} in
  Session.chat_components used = Some assistant /\
  Session.agent_session_id (Session.session used) = Some "tool_demo_u1" /\
  Session.stream (Session._reset_agent used) "two" down "u2" llama_client
    = (after, ([], Session.Failed Session.TypeError_async_for)) /\
  @Session.stream runtime async_sdk (Session._reset_agent used) "two" down "u2" llama_client
    = (after,
       ([Print "step_progress"; Yield "two"; Print "step_start";
         Print "step_progress"; Yield "!"],
        Session.Got tt)).
Proof.
  intros down used after.
  assert (Hcomps : Session.chat_components used = Some assistant) by reflexivity.
  destruct (reset_then_stream_opens_session used "two" down "u2" llama_client assistant Hcomps)
    as [_ Hsync].
  destruct (@reset_then_stream_opens_session runtime async_sdk used "two" down "u2"
              llama_client assistant Hcomps)
    as [_ Hasync].
  split; [exact Hcomps |]. split; [reflexivity |]. split.
  - rewrite Hsync. reflexivity.
  - rewrite Hasync. reflexivity.
Defined.
